(** * Skillverse: the Cart / Wishlist state container (CartWishlistContext.js)

    A shallow embedding of the combined cart and wishlist context: the
    storage loader ([safeGet] and the initial state of the two providers),
    the cart operations (add / remove / update / clear / totals), the
    wishlist operations and the two consumer hooks.

    JavaScript data is embedded as follows.
    - A number is a binary64 float ([PrimFloat.float]).
    - A string is a [string] whose characters are the code units of the
      JavaScript string (code units below 256).
    - An object is a finite map from property names to values
      ([gmap string value]); a nested array or object carries the identity
      of its heap cell, which is what [===] compares.
      Objects are plain data records: they hold data only, and none of
      their own properties hides a method of [Object.prototype].
    - The state of a provider is a [list] of entries, each a plain object.
    - React's [setItems (prev => ...)] queues the updater; the updaters are
      applied to the state one after the other, in the order of the calls,
      so an operation is a function from the current sequence to the next
      one together with the notifications it fired.  React runs an updater
      before [setItems] returns only on its eager path, for a provider with
      no update pending, and when the provider renders next otherwise.
      Which of the two a call meets is React's doing and an input here
      ([updater_run]); only the notification of [addToCart] and
      [addToWishlist], which test a flag the updater sets, depends on it.
    - Writing the state back with [safeSet] after a change does not feed
      into the state and is left out. *)

From Stdlib Require Import ZArith Floats Ascii String List Bool Lia.
From Stdlib Require Uint63.
From stdpp Require Import gmap strings list fin_maps.

Set Warnings "-inexact-float,-register-all".
Local Open Scope Z_scope.

(** ** JavaScript values *)

Module JS.

Inductive value :=
  | VUndefined
  | VNull
  | VBool (b : bool)
  | VNum (x : float)
  | VStr (s : string)
  | VArr (cell : N) (elems : list value)
  | VObj (cell : N) (props : gmap string value).

(** A plain object: own enumerable properties by name. *)
Abbreviation object := (gmap string value).

(** What a call hands back: a value, or a thrown [Error] with its message. *)
Inductive outcome (A : Type) :=
  | Returns (a : A)
  | Throws (message : string).
Arguments Returns {A} a.
Arguments Throws {A} message.

(** [o.k] on a plain object: the own property, [undefined] when missing. *)
Definition get (o : object) (k : string) : value :=
  default VUndefined (o !! k).

(** [{ ...o, k: v }] *)
Definition spread_with (o : object) (k : string) (v : value) : object :=
  <[k := v]> o.

(** [v.k] on any value, for a name [k] that no built-in prototype defines
    ([items], [id], ...): reading from [undefined] or [null] throws a
    TypeError, a primitive or an array has no such own property. *)
Definition get_prop (v : value) (k : string) : outcome value :=
  match v with
  | VUndefined | VNull => Throws "TypeError: Cannot read properties"
  | VObj _ props => Returns (get props k)
  | _ => Returns VUndefined
  end.

Definition is_nan (x : float) : bool := negb (x =? x)%float.

(** ToBoolean *)
Definition ToBoolean (v : value) : bool :=
  match v with
  | VUndefined | VNull => false
  | VBool b => b
  | VNum x => negb ((x =? 0)%float || is_nan x)
  | VStr s => negb (String.eqb s "")
  | VArr _ _ | VObj _ _ => true
  end.

(** [a || b] *)
Definition or_else (a b : value) : value := if ToBoolean a then a else b.

(** [x || d] where [x] is known to be a number. *)
Definition num_or (x d : float) : float := if ToBoolean (VNum x) then x else d.

(** [a === b]: numbers by IEEE equality (NaN differs from itself, the two
    zeros are equal), arrays and objects by identity. *)
Definition strict_eq (a b : value) : bool :=
  match a, b with
  | VUndefined, VUndefined => true
  | VNull, VNull => true
  | VBool x, VBool y => Bool.eqb x y
  | VNum x, VNum y => (x =? y)%float
  | VStr s, VStr t => String.eqb s t
  | VArr c _, VArr c' _ => N.eqb c c'
  | VObj c _, VObj c' _ => N.eqb c c'
  | _, _ => false
  end.

Definition Array_isArray (v : value) : bool :=
  match v with VArr _ _ => true | _ => false end.

(** *** StringToNumber

    The StrNumericLiteral grammar: optional white space around an optional
    decimal literal (sign, [Infinity], digits with an optional fraction and
    exponent) or an unsigned binary, octal or hexadecimal integer. The
    mathematical value is rounded to the nearest binary64, ties to even. *)

Definition is_white_space (c : ascii) : bool :=
  let n := nat_of_ascii c in
  ((n =? 9) || (n =? 10) || (n =? 11) || (n =? 12) || (n =? 13)
   || (n =? 32) || (n =? 160))%nat.

Fixpoint trim_start (l : list ascii) : list ascii :=
  match l with
  | c :: l' => if is_white_space c then trim_start l' else l
  | [] => []
  end.

Definition trim (l : list ascii) : list ascii :=
  rev (trim_start (rev (trim_start l))).

(** The value of a digit in the given base, letters standing for 10..35. *)
Definition digit_value (base : Z) (c : ascii) : option Z :=
  let n := Z.of_nat (nat_of_ascii c) in
  let d := if (48 <=? n) && (n <=? 57) then n - 48
           else if (97 <=? n) && (n <=? 122) then n - 87
           else if (65 <=? n) && (n <=? 90) then n - 55
           else base in
  if d <? base then Some d else None.

(** Reads the longest run of digits: the accumulated value, the number of
    digits read and the rest of the input. *)
Fixpoint read_digits (base : Z) (l : list ascii) (acc count : Z)
  : Z * Z * list ascii :=
  match l with
  | c :: l' =>
      match digit_value base c with
      | Some d => read_digits base l' (acc * base + d) (count + 1)
      | None => (acc, count, l)
      end
  | [] => (acc, count, [])
  end.

(** [p / q] for positive integers, rounded to binary64. *)
Definition round_ratio (negative : bool) (p q : positive) : float :=
  SF2Prim (SFdiv prec emax (S754_finite negative p 0) (S754_finite false q 0)).

(** [m * 10^e], rounded to binary64; [digits] is the number of decimal
    digits [m] was written with. *)
Definition round_decimal (negative : bool) (m e digits : Z) : float :=
  if m =? 0 then (if negative then (-0)%float else 0%float)
  else if 400 <? e then (if negative then neg_infinity else infinity)
  else if e + digits <? -400 then (if negative then (-0)%float else 0%float)
  else if 0 <=? e then round_ratio negative (Z.to_pos (m * 10 ^ e)) 1
  else round_ratio negative (Z.to_pos m) (Z.to_pos (10 ^ (- e))).

(** ExponentPart, then the end of the input. *)
Definition read_exponent (l : list ascii) : option Z :=
  match l with
  | [] => Some 0
  | c :: l' =>
      if (Ascii.eqb c "e" || Ascii.eqb c "E")%char then
        let '(negative, l'') :=
          match l' with
          | s :: r => if Ascii.eqb s "-" then (true, r)
                      else if Ascii.eqb s "+" then (false, r)
                      else (false, l')
          | [] => (false, l')
          end in
        match read_digits 10 l'' 0 0 with
        | (x, n, []) => if 0 <? n then Some (if negative then - x else x) else None
        | _ => None
        end
      else None
  end.

(** StrUnsignedDecimalLiteral *)
Definition read_unsigned_decimal (negative : bool) (l : list ascii) : option float :=
  if String.eqb (string_of_list_ascii l) "Infinity"
  then Some (if negative then neg_infinity else infinity)
  else
    let '(ip, ni, r1) := read_digits 10 l 0 0 in
    let '(m, nf, r2) :=
      match r1 with
      | c :: r => if Ascii.eqb c "." then
                    let '(m, n, r') := read_digits 10 r ip ni in (m, n - ni, r')
                  else (ip, 0, r1)
      | [] => (ip, 0, r1)
      end in
    if ni + nf =? 0 then None
    else match read_exponent r2 with
         | Some x => Some (round_decimal negative m (x - nf) (ni + nf))
         | None => None
         end.

(** NonDecimalIntegerLiteral: [0b], [0o] or [0x] and at least one digit. *)
Definition read_non_decimal (l : list ascii) : option float :=
  match l with
  | z :: p :: r =>
      let base :=
        if Ascii.eqb p "x" || Ascii.eqb p "X" then 16
        else if Ascii.eqb p "o" || Ascii.eqb p "O" then 8
        else if Ascii.eqb p "b" || Ascii.eqb p "B" then 2
        else 0 in
      if Ascii.eqb z "0" && (0 <? base) then
        match read_digits base r 0 0 with
        | (x, n, []) => if 0 <? n then Some (round_decimal false x 0 n) else None
        | _ => None
        end
      else None
  | _ => None
  end.

Definition StringToNumber (s : string) : float :=
  match trim (list_ascii_of_string s) with
  | [] => 0%float
  | (c :: r) as l =>
      match read_non_decimal l with
      | Some x => x
      | None =>
          let literal :=
            if Ascii.eqb c "-" then read_unsigned_decimal true r
            else if Ascii.eqb c "+" then read_unsigned_decimal false r
            else read_unsigned_decimal false l in
          match literal with Some x => x | None => nan end
      end
  end.

(** *** Number(v)

    ToNumber. An array is first turned into the string of its elements joined
    by commas, so only an array of at most one element can be numeric; a
    number element is printed and read back, which returns it unchanged
    except that the negative zero prints as [0]. A plain data object prints
    as [[object Object]], which is not numeric. *)
Fixpoint Number (v : value) : float :=
  match v with
  | VUndefined => nan
  | VNull => 0%float
  | VBool b => if b then 1%float else 0%float
  | VNum x => x
  | VStr s => StringToNumber s
  | VArr _ [] => 0%float
  | VArr _ [e] =>
      match e with
      | VUndefined | VNull => 0%float
      | VBool _ => nan
      | VNum x => if (x =? 0)%float then 0%float else x
      | VStr s => StringToNumber s
      | VArr _ _ => Number e
      | VObj _ _ => nan
      end
  | VArr _ (_ :: _ :: _) => nan
  | VObj _ _ => nan
  end.

End JS.
Import JS.

(** ** The storage adapter *)

(** The browser as the loader sees it: whether [window] exists, what
    [localStorage.getItem] does for a key (the stored string, [null] for an
    absent key, or an exception when storage is denied) and what
    [JSON.parse] does with a string. *)
Record environment := {
  window_defined : bool;
  localStorage_getItem : string -> outcome (option string);
  JSON_parse : string -> outcome value;
}.

Definition safeGet (env : environment) (key : string) : value :=
  if negb (window_defined env) then VNull
  else
    match localStorage_getItem env key with
    | Returns (Some raw) =>
        if negb (ToBoolean (VStr raw)) then VNull
        else match JSON_parse env raw with
             | Returns parsed => parsed
             | Throws _ => VNull
             end
    | Returns None => VNull
    | Throws _ => VNull
    end.

(** The elements of an array value. *)
Definition elements (v : value) : list value :=
  match v with VArr _ elems => elems | _ => [] end.

(** The initializer both providers pass to [useState]. *)
Definition initial_items (env : environment) (key : string) : outcome (list value) :=
  let saved := safeGet env key in
  if negb (ToBoolean saved) then Returns []
  else
    match get_prop saved "items" with
    | Throws e => Throws e
    | Returns saved_items =>
        if Array_isArray saved_items then Returns (elements saved_items)
        else if Array_isArray saved then Returns (elements saved)
        else Returns []
    end.

(** ** Notifications *)

(** The text handed to the toast: a literal, or a template literal
    [`${v} suffix`]. *)
Inductive message :=
  | Text (s : string)
  | Template (v : value) (suffix : string).

Inductive toast :=
  | toast_success (m : message)
  | toast_error (m : message).

(** A state change: the next sequence and the notifications fired. *)
Definition transition : Type := list object -> list object * list toast.

(** When React runs the updater handed to [setItems]: before [setItems]
    returns, or not until the provider renders next. *)
Inductive updater_run :=
  | BeforeReturn
  | AtNextRender.

(** A flag that starts [false] and that the updater may set, as the
    statement after [setItems (...)] reads it. *)
Definition flag_after_setItems (when : updater_run) (set_by_updater : bool) : bool :=
  match when with
  | BeforeReturn => set_by_updater
  | AtNextRender => false
  end.

(** [l.findIndex(f)] *)
Fixpoint findIndex_from {A} (f : A -> bool) (l : list A) (i : Z) : Z :=
  match l with
  | [] => -1
  | x :: l' => if f x then i else findIndex_from f l' (i + 1)
  end.

Definition findIndex {A} (f : A -> bool) (l : list A) : Z := findIndex_from f l 0.

(** ** The cart provider *)

Module CartProvider.

(** The updater [addToCart] passes to [setItems], with the [added] flag it
    sets. [alter] rewrites the entry at [idx], which [findIndex] found. *)
Definition addToCart_update (product : object) (prev : list object)
  : list object * bool :=
  let idx := findIndex (fun i => strict_eq (get i "id") (get product "id")) prev in
  if -1 <? idx then
    let next :=
      alter (fun entry =>
               spread_with entry "quantity"
                 (VNum (num_or (Number (get entry "quantity")) 0 + 1)%float))
            (Z.to_nat idx) prev in
    (next, false)
  else (prev ++ [spread_with product "quantity" (VNum 1)], true).

(** [addToCart (product)]: [added] starts [false], [setItems] is handed the
    updater, and the statement that follows fires the notification if
    [added] is set by then, which it is only if the updater appended and
    React ran it before [setItems] returned. The next state is the
    updater's in both cases. *)
Definition addToCart (when : updater_run) (product : object) : transition := fun prev =>
  let '(next, set_by_updater) := addToCart_update product prev in
  let added := flag_after_setItems when set_by_updater in
  (next,
   if added
   then [toast_success
           (Template (or_else (get product "title") (VStr "Item")) " added to cart")]
   else []).

Definition removeFromCart (id : value) : transition := fun prev =>
  (List.filter (fun i => negb (strict_eq (get i "id") id)) prev,
   [toast_error (Text "Removed from cart")]).

Definition updateQuantity (id quantity : value) : transition := fun prev =>
  let next :=
    List.filter (fun i => (0 <? Number (get i "quantity"))%float)
      (List.map (fun i => if strict_eq (get i "id") id
                          then spread_with i "quantity" (VNum (Number quantity))
                          else i)
                prev) in
  (next, []).

Definition clearCart : transition := fun _ =>
  ([], [toast_success (Text "Cart cleared!")]).

Definition getTotalItems (items : list object) : float :=
  fold_left (fun s i => (s + num_or (Number (get i "quantity")) 0)%float) items 0%float.

Definition getTotalPrice (items : list object) : float :=
  fold_left (fun s i => (s + num_or (Number (get i "price")) 0
                             * num_or (Number (get i "quantity")) 0)%float)
            items 0%float.

Definition isInCart (items : list object) (id : value) : bool :=
  existsb (fun i => strict_eq (get i "id") id) items.

End CartProvider.

(** ** The wishlist provider *)

Module WishlistProvider.

Definition addToWishlist_update (product : object) (prev : list object)
  : list object * bool :=
  if existsb (fun i => strict_eq (get i "id") (get product "id")) prev
  then (prev, false)
  else (prev ++ [product], true).

(** [addToWishlist (product)], with the same [added] flag tested after
    [setItems]. *)
Definition addToWishlist (when : updater_run) (product : object) : transition := fun prev =>
  let '(next, set_by_updater) := addToWishlist_update product prev in
  let added := flag_after_setItems when set_by_updater in
  (next,
   if added
   then [toast_success
           (Template (or_else (get product "title") (VStr "Item")) " added to wishlist")]
   else []).

Definition removeFromWishlist (id : value) : transition := fun prev =>
  (List.filter (fun i => negb (strict_eq (get i "id") id)) prev,
   [toast_error (Text "Removed from wishlist")]).

Definition getTotalItems (items : list object) : nat := length items.

Definition isInWishlist (items : list object) (id : value) : bool :=
  existsb (fun i => strict_eq (get i "id") id) items.

End WishlistProvider.

(** ** The context values and the consumer hooks *)

(** The [value] object a [CartProvider] hands to its context. The two
    operations that test a flag after [setItems] take React's timing of the
    call first. *)
Record CartContextValue := {
  cart_items : list object;
  cart_addToCart : updater_run -> object -> transition;
  cart_removeFromCart : value -> transition;
  cart_updateQuantity : value -> value -> transition;
  cart_clearCart : transition;
  cart_getTotalItems : unit -> float;
  cart_getTotalPrice : unit -> float;
  cart_isInCart : value -> bool;
}.

Record WishlistContextValue := {
  wishlist_items : list object;
  wishlist_addToWishlist : updater_run -> object -> transition;
  wishlist_removeFromWishlist : value -> transition;
  wishlist_getTotalItems : unit -> nat;
  wishlist_isInWishlist : value -> bool;
}.

Definition CartProvider_value (items : list object) : CartContextValue := {|
  cart_items := items;
  cart_addToCart := CartProvider.addToCart;
  cart_removeFromCart := CartProvider.removeFromCart;
  cart_updateQuantity := CartProvider.updateQuantity;
  cart_clearCart := CartProvider.clearCart;
  cart_getTotalItems := fun _ => CartProvider.getTotalItems items;
  cart_getTotalPrice := fun _ => CartProvider.getTotalPrice items;
  cart_isInCart := CartProvider.isInCart items;
|}.

Definition WishlistProvider_value (items : list object) : WishlistContextValue := {|
  wishlist_items := items;
  wishlist_addToWishlist := WishlistProvider.addToWishlist;
  wishlist_removeFromWishlist := WishlistProvider.removeFromWishlist;
  wishlist_getTotalItems := fun _ => WishlistProvider.getTotalItems items;
  wishlist_isInWishlist := WishlistProvider.isInWishlist items;
|}.

(** Where a consumer is rendered: the current state of the nearest
    [CartProvider] and of the nearest [WishlistProvider] above it, if any. *)
Record scope := {
  nearest_cart : option (list object);
  nearest_wishlist : option (list object);
}.

(** [useContext(CartContext)]: the nearest provider's value, or the default
    [null] the context was created with. *)
Definition useContext_CartContext (sc : scope) : option CartContextValue :=
  CartProvider_value <$> nearest_cart sc.

Definition useContext_WishlistContext (sc : scope) : option WishlistContextValue :=
  WishlistProvider_value <$> nearest_wishlist sc.

Definition useCart (sc : scope) : outcome CartContextValue :=
  match useContext_CartContext sc with
  | None => Throws "useCart must be used within a CartProvider"
  | Some ctx => Returns ctx
  end.

Definition useWishlist (sc : scope) : outcome WishlistContextValue :=
  match useContext_WishlistContext sc with
  | None => Throws "useWishlist must be used within a WishlistProvider"
  | Some ctx => Returns ctx
  end.

(** ** The cart invariant *)

(** No entry has the id of a later one. *)
Fixpoint unique_ids (items : list object) : bool :=
  match items with
  | [] => true
  | i :: rest =>
      forallb (fun j => negb (strict_eq (get i "id") (get j "id"))) rest
      && unique_ids rest
  end.

Definition positive_number (v : value) : bool :=
  match v with VNum x => (0 <? x)%float | _ => false end.

Definition positive_quantities (items : list object) : bool :=
  forallb (fun i => positive_number (get i "quantity")) items.

Definition cart_invariant (items : list object) : bool :=
  unique_ids items && positive_quantities items.

(** ** Reference readings used by the statements below *)

(** The filter of [updateQuantity]: [Number(i.quantity) > 0]. *)
Definition quantity_above_zero (i : object) : bool :=
  (0 <? Number (get i "quantity"))%float.

(** A stored quantity plus one, a quantity that is not numeric counting as
    zero. *)
Definition incremented (v : value) : float :=
  if is_nan (Number v) then 1%float else (Number v + 1)%float.

(** The numeric reading of a field: its number, and zero when the field is
    missing or not numeric. *)
Definition numeric_or_zero (v : value) : float :=
  if is_nan (Number v) then 0%float else Number v.

(** Price times quantity of one entry. *)
Definition line_total (i : object) : float :=
  (numeric_or_zero (get i "price") * numeric_or_zero (get i "quantity"))%float.

(** The sum of the line totals, entry after entry from the first. *)
Fixpoint sum_line_totals (acc : float) (items : list object) : float :=
  match items with
  | [] => acc
  | i :: rest => sum_line_totals (acc + line_total i)%float rest
  end.

(** The three stored shapes: an object with an [items] sequence, a bare
    sequence, anything else. *)
Definition stored_shape_items (stored : value) : list value :=
  match stored with
  | VObj _ props =>
      match get props "items" with
      | VArr _ contained => contained
      | _ => []
      end
  | VArr _ elems => elems
  | _ => []
  end.

(** What the store holds under a key, as the loader can tell. *)
Inductive stored_state :=
  | StorageUnavailable
  | KeyAbsent
  | Unparsable
  | Stored (v : value).

Definition stored_under (env : environment) (key : string) : stored_state :=
  if window_defined env then
    match localStorage_getItem env key with
    | Throws _ => StorageUnavailable
    | Returns None => KeyAbsent
    | Returns (Some raw) =>
        if String.eqb raw "" then Unparsable
        else match JSON_parse env raw with
             | Throws _ => Unparsable
             | Returns v => Stored v
             end
    end
  else StorageUnavailable.

(** The number of entries with a given id. *)
Definition count_id (items : list object) (id : value) : nat :=
  length (List.filter (fun i => strict_eq (get i "id") id) items).

(** The number that holds the integer [n], for [0 <= n < 2^63]. *)
Definition integer (n : Z) : float := of_uint63 (Uint63Axioms.of_Z n).

(** A finite positive number or plus infinity. *)
Definition positive_sf (x : spec_float) : Prop :=
  match x with
  | S754_finite false _ _ | S754_infinity false => True
  | _ => False
  end.

Definition is_zero_sf (x : spec_float) : Prop :=
  match x with S754_zero _ => True | _ => False end.

(** Equal, or two zeros whatever their signs. *)
Definition same_or_zeros (x y : spec_float) : Prop :=
  x = y \/ (is_zero_sf x /\ is_zero_sf y).

(** Sample entries. *)
Definition entry (id price quantity : float) : object :=
  {[ "id" := VNum id; "price" := VNum price; "quantity" := VNum quantity ]}.

Definition course (id : float) (title : string) (price : float) : object :=
  {[ "id" := VNum id; "title" := VStr title; "price" := VNum price ]}.

Definition double_quote : string := String (ascii_of_nat 34) "".

(** A cart written by an earlier version as a bare sequence, with one id
    twice and a quantity of zero. *)
Definition legacy_cart_text : string :=
  "[{" ++ double_quote ++ "id" ++ double_quote ++ ":7,"
       ++ double_quote ++ "quantity" ++ double_quote ++ ":0},{"
       ++ double_quote ++ "id" ++ double_quote ++ ":7,"
       ++ double_quote ++ "quantity" ++ double_quote ++ ":3}]".

Definition legacy_cart_first : object := {[ "id" := VNum 7; "quantity" := VNum 0 ]}.
Definition legacy_cart_second : object := {[ "id" := VNum 7; "quantity" := VNum 3 ]}.

(** A store that holds [text] under [key], where [text] parses to [parsed]. *)
Definition store_holding (key text : string) (parsed : value) : environment := {|
  window_defined := true;
  localStorage_getItem := fun k =>
    Returns (if String.eqb k key then Some text else None);
  JSON_parse := fun raw =>
    if String.eqb raw text then Returns parsed else Throws "SyntaxError";
|}.

Definition legacy_cart_value : value :=
  VArr 1 [VObj 2 legacy_cart_first; VObj 3 legacy_cart_second].

(** The same entries in the current layout, under [items]. *)
Definition current_cart_text : string :=
  "{" ++ double_quote ++ "items" ++ double_quote ++ ":" ++ legacy_cart_text ++ "}".

Definition current_cart_value : value :=
  VObj 0 {[ "items" := legacy_cart_value ]}.

(** ** Writing to the store *)

(** The browser with the contents of its store: whether [window] exists,
    whether reaching [localStorage] throws, whether [setItem] refuses a text
    for a key (the quota), the stored texts, and what [JSON.parse] and
    [JSON.stringify] do. *)
Record browser := {
  has_window : bool;
  storage_denied : bool;
  storage_full : string -> string -> bool;
  stored : gmap string string;
  parse : string -> outcome value;
  stringify : value -> outcome string;
}.

(** What the loader sees of a browser. *)
Definition environment_of (b : browser) : environment := {|
  window_defined := has_window b;
  localStorage_getItem := fun key =>
    if storage_denied b then Throws "SecurityError" else Returns (stored b !! key);
  JSON_parse := parse b;
|}.

Definition safeSet (b : browser) (key : string) (v : value) : browser :=
  if negb (has_window b) then b
  else if storage_denied b then b
  else
    match stringify b v with
    | Throws _ => b
    | Returns text =>
        if storage_full b key text then b
        else {| has_window := has_window b;
                storage_denied := storage_denied b;
                storage_full := storage_full b;
                stored := <[key := text]> (stored b);
                parse := parse b;
                stringify := stringify b |}
    end.

(** The record both providers write after a change of their items:
    [{ items, updatedAt: Date.now() }]. *)
Definition persisted_record (cell array_cell : N) (items : list value) (now : float)
  : value :=
  VObj cell {[ "items" := VArr array_cell items; "updatedAt" := VNum now ]}.

(** A working browser whose store holds the text of one written cart. *)
Definition written_cart_text : string :=
  "{" ++ double_quote ++ "items" ++ double_quote ++ ":[{"
      ++ double_quote ++ "id" ++ double_quote ++ ":7,"
      ++ double_quote ++ "quantity" ++ double_quote ++ ":3}],"
      ++ double_quote ++ "updatedAt" ++ double_quote ++ ":1700000000000}".

Definition working_browser : browser := {|
  has_window := true;
  storage_denied := false;
  storage_full := fun _ _ => false;
  stored := {[ "wishlist" := "[]" ]};
  parse := fun raw =>
    if String.eqb raw written_cart_text
    then Returns (persisted_record 10 11 [VObj 12 legacy_cart_second] 1700000000000)
    else if String.eqb raw "[]" then Returns (VArr 13 [])
    else Throws "SyntaxError";
  stringify := fun v =>
    match v with
    | VObj _ _ => Returns written_cart_text
    | _ => Returns "null"
    end;
|}.

(** ** The whole application state and the handlers of the pages *)

Record app := {
  cart : list object;
  wishlist : list object;
  toasts : list toast;
}.

(** A cart operation, or a wishlist operation, run in the application. *)
Definition on_cart (t : transition) (s : app) : app :=
  let '(next, fired) := t (cart s) in
  {| cart := next; wishlist := wishlist s; toasts := toasts s ++ fired |}.

Definition on_wishlist (t : transition) (s : app) : app :=
  let '(next, fired) := t (wishlist s) in
  {| cart := cart s; wishlist := next; toasts := toasts s ++ fired |}.

(** The cart button with its dropdown. *)
Module CartIcon.

Definition handleQuantityChange (courseId newQuantity : value) : transition :=
  fun prev =>
    if (Number newQuantity <? 1)%float
    then CartProvider.removeFromCart courseId prev
    else CartProvider.updateQuantity courseId newQuantity prev.

(** The minus and the plus button of an item. *)
Definition decrease (item : object) : transition :=
  handleQuantityChange (get item "id")
    (VNum (num_or (Number (get item "quantity")) 0 - 1)%float).

Definition increase (item : object) : transition :=
  handleQuantityChange (get item "id")
    (VNum (num_or (Number (get item "quantity")) 0 + 1)%float).

End CartIcon.

(** The wishlist page. *)
Module Wishlist.

Definition handleMoveToCart (when : updater_run) (course : object) (s : app) : app :=
  on_wishlist (WishlistProvider.removeFromWishlist (get course "id"))
    (on_cart (CartProvider.addToCart when course) s).

Definition handleRemoveFromWishlist (courseId : value) (s : app) : app :=
  on_wishlist (WishlistProvider.removeFromWishlist courseId) s.

(** [items.forEach (course => addToCart (course))], from the [n]-th call of
    the handler on; [when k] is React's timing of the [k]-th call. *)
Fixpoint add_each (when : nat -> updater_run) (n : nat) (items : list object) (s : app)
  : app :=
  match items with
  | [] => s
  | course :: rest =>
      add_each when (S n) rest (on_cart (CartProvider.addToCart (when n) course) s)
  end.

(** The "Add All to Cart" button: the ids are copied, every item of the
    rendered wishlist is added to the cart, then every copied id is removed
    from the wishlist. *)
Definition add_all_to_cart (when : nat -> updater_run) (s : app) : app :=
  let items := wishlist s in
  let ids := List.map (fun c => get c "id") items in
  let added := add_each when 0 items s in
  fold_left (fun st id => on_wishlist (WishlistProvider.removeFromWishlist id) st) ids added.

End Wishlist.

(** A course card; [course] is [None] for a missing [course] prop. *)
Module CourseCard.

Definition handleAddToCart (when : updater_run) (course : option object) (s : app)
  : app :=
  match course with
  | None => s
  | Some c => on_cart (CartProvider.addToCart when c) s
  end.

Definition handleWishlistToggle (when : updater_run) (course : option object) (s : app)
  : app :=
  match course with
  | None => s
  | Some c =>
      let inWishlist := WishlistProvider.isInWishlist (wishlist s) (get c "id") in
      if inWishlist
      then on_wishlist (WishlistProvider.removeFromWishlist (get c "id")) s
      else on_wishlist (WishlistProvider.addToWishlist when c) s
  end.

End CourseCard.

(** ** Sequences of calls *)

(** A call of an operation; a call that adds comes with React's timing of
    it. *)
Inductive cart_action :=
  | AddToCart (when : updater_run) (product : object)
  | RemoveFromCart (id : value)
  | UpdateQuantity (id quantity : value)
  | ClearCart.

Definition cart_step (a : cart_action) : transition :=
  match a with
  | AddToCart when product => CartProvider.addToCart when product
  | RemoveFromCart id => CartProvider.removeFromCart id
  | UpdateQuantity id quantity => CartProvider.updateQuantity id quantity
  | ClearCart => CartProvider.clearCart
  end.

Inductive wishlist_action :=
  | AddToWishlist (when : updater_run) (product : object)
  | RemoveFromWishlist (id : value).

Definition wishlist_step (a : wishlist_action) : transition :=
  match a with
  | AddToWishlist when product => WishlistProvider.addToWishlist when product
  | RemoveFromWishlist id => WishlistProvider.removeFromWishlist id
  end.

(** The items after a sequence of calls, one after the other. *)
Definition run {A} (step : A -> transition) (actions : list A) (start : list object)
  : list object :=
  fold_left (fun items a => fst (step a items)) actions start.

(** An id that [===] finds equal to itself: any id but NaN. *)
Definition self_equal (i : object) : bool := strict_eq (get i "id") (get i "id").

(** ** Carts of integer quantities *)

(** The entries carry the integer quantities [ks], each at least [low]. *)
Definition integer_quantities (low : Z) (items : list object) (ks : list Z) : Prop :=
  Forall2 (fun (i : object) (k : Z) =>
             get i "quantity" = VNum (integer k) /\ low <= k) items ks.

Definition total (ks : list Z) : Z := fold_right Z.add 0 ks.

(** The ids of the entries, in order. *)
Definition ids (items : list object) : list value :=
  List.map (fun i => get i "id") items.

(** * Facts about binary64 rounding *)

Section Rounding.
Variables prec emax : Z.
Hypothesis prec_pos : 0 < prec.
Abbreviation emin := (SpecFloat.emin prec emax).
Abbreviation fexp := (SpecFloat.fexp prec emax).

Lemma digits2_pos_size p : digits2_pos p = Pos.size p.
Proof. induction p; simpl; congruence. Qed.

Lemma Zdigits2_log2 m : 0 < m -> Zdigits2 m = Z.log2 m + 1.
Proof.
  destruct m as [|p|p]; try lia. intros _. simpl. rewrite digits2_pos_size.
  destruct p; simpl; lia.
Qed.

Lemma shr_m_shr_1 mrs : 0 <= shr_m mrs -> shr_m (shr_1 mrs) = Z.shiftr (shr_m mrs) 1.
Proof.
  destruct mrs as [m r s]. simpl. intros Hm. rewrite <- Z.div2_spec.
  destruct m as [|[q|q|]|q]; try lia; reflexivity.
Qed.

Lemma shr_m_iter_pos p : forall mrs, 0 <= shr_m mrs ->
  shr_m (SpecFloat.iter_pos shr_1 p mrs) = Z.shiftr (shr_m mrs) (Zpos p).
Proof.
  induction p as [p IH|p IH|]; intros mrs Hm; simpl SpecFloat.iter_pos.
  - assert (H1 : 0 <= shr_m (shr_1 mrs)).
    { rewrite shr_m_shr_1 by assumption. apply Z.shiftr_nonneg. assumption. }
    assert (H2 : 0 <= shr_m (SpecFloat.iter_pos shr_1 p (shr_1 mrs))).
    { rewrite IH by assumption. apply Z.shiftr_nonneg. assumption. }
    rewrite IH, IH, shr_m_shr_1 by assumption.
    rewrite !Z.shiftr_shiftr by lia. f_equal. lia.
  - assert (H2 : 0 <= shr_m (SpecFloat.iter_pos shr_1 p mrs)).
    { rewrite IH by assumption. apply Z.shiftr_nonneg. assumption. }
    rewrite IH, IH by assumption.
    rewrite !Z.shiftr_shiftr by lia. f_equal. lia.
  - apply shr_m_shr_1. assumption.
Qed.

(** [shr] divides the mantissa by [2^n] and adds [n] to the exponent. *)
Lemma shr_spec mrs e n : 0 <= shr_m mrs ->
  shr_m (fst (shr mrs e n)) = Z.shiftr (shr_m mrs) (Z.max 0 n)
  /\ snd (shr mrs e n) = e + Z.max 0 n.
Proof.
  intros Hm. destruct n as [|p|p]; simpl.
  - split; [reflexivity | lia].
  - rewrite shr_m_iter_pos by assumption. split; [reflexivity | lia].
  - split; [reflexivity | lia].
Qed.

Lemma shr_m_record_of_loc m l : shr_m (shr_record_of_loc m l) = m.
Proof. destruct l as [|[| |]]; reflexivity. Qed.

Lemma shiftr_pos m n : 0 < m -> 0 <= n -> n <= Z.log2 m ->
  0 < Z.shiftr m n /\ Z.log2 (Z.shiftr m n) = Z.log2 m - n.
Proof.
  intros Hm Hn Hle. split.
  - rewrite Z.shiftr_div_pow2 by assumption.
    apply Z.div_str_pos. split; [apply Z.pow_pos_nonneg; lia|].
    transitivity (2 ^ Z.log2 m); [apply Z.pow_le_mono_r; lia | apply Z.log2_spec; lia].
  - rewrite Z.log2_shiftr by assumption. lia.
Qed.

(** One step of [shr_fexp] on a positive mantissa above the underflow
    threshold keeps the mantissa positive and the magnitude. *)
Lemma shr_fexp_pos m e l : 0 < m -> emin < Zdigits2 m + e ->
  let '(mrs, e') := shr_fexp prec emax m e l in
  0 < shr_m mrs /\ Zdigits2 m + e = Zdigits2 (shr_m mrs) + e'.
Proof.
  intros Hm Hd. unfold shr_fexp.
  destruct (shr _ e _) as [mrs e'] eqn:E.
  pose proof (shr_spec (shr_record_of_loc m l) e
                (fexp (Zdigits2 m + e) - e)) as S.
  rewrite E, shr_m_record_of_loc in S. simpl in S.
  destruct S as [S1 S2]; [lia|].
  rewrite Zdigits2_log2 in Hd, S1, S2 |- * by assumption.
  assert (Hn : Z.max 0 (fexp (Z.log2 m + 1 + e) - e) <= Z.log2 m).
  { unfold SpecFloat.fexp, SpecFloat.emin in *. pose proof (Z.log2_nonneg m). lia. }
  destruct (shiftr_pos m _ Hm (Z.le_max_l _ _) Hn) as [P1 P2].
  rewrite S1. split; [assumption|].
  rewrite Zdigits2_log2 by assumption. rewrite P2, S2. lia.
Qed.

Lemma round_nearest_even_ge m l : m <= round_nearest_even m l.
Proof. destruct l as [|[| |]]; simpl; try destruct (Z.even m); lia. Qed.

(** Rounding a positive mantissa above the underflow threshold gives a
    finite number or an infinity of the same sign, never a zero. *)
Lemma binary_round_aux_nonzero sx m e l : 0 < m -> emin < Zdigits2 m + e ->
  match binary_round_aux prec emax sx m e l with
  | S754_finite s _ _ | S754_infinity s => s = sx
  | _ => False
  end.
Proof.
  intros Hm Hd. unfold binary_round_aux.
  pose proof (shr_fexp_pos m e l Hm Hd) as S1.
  destruct (shr_fexp prec emax m e l) as [mrs1 e1]. destruct S1 as [P1 D1].
  set (m1 := round_nearest_even (shr_m mrs1) (loc_of_shr_record mrs1)).
  assert (Hge : shr_m mrs1 <= m1) by apply round_nearest_even_ge.
  assert (Hm1 : 0 < m1) by lia.
  assert (Hd1 : emin < Zdigits2 m1 + e1).
  { rewrite (Zdigits2_log2 m), (Zdigits2_log2 (shr_m mrs1)) in D1 by assumption.
    rewrite (Zdigits2_log2 m) in Hd by assumption.
    rewrite (Zdigits2_log2 m1) by assumption.
    pose proof (Z.log2_le_mono _ _ Hge). lia. }
  pose proof (shr_fexp_pos m1 e1 loc_Exact Hm1 Hd1) as S2.
  destruct (shr_fexp prec emax m1 e1 loc_Exact) as [mrs2 e2]. destruct S2 as [P2 _].
  destruct (shr_m mrs2) as [|p|p]; try lia.
  destruct (e2 <=? emax - prec); reflexivity.
Qed.

Lemma Zdigits2_shl p d :
  Zpos (digits2_pos (Pos.iter xO p d)) = Zpos (digits2_pos p) + Zpos d.
Proof.
  revert p. induction d using Pos.peano_ind; intros p.
  - simpl. lia.
  - rewrite Pos.iter_succ. simpl digits2_pos. rewrite Pos2Z.inj_succ, IHd. lia.
Qed.

Lemma binary_round_nonzero sx p e : emin < Zpos (digits2_pos p) + e ->
  match binary_round prec emax sx p e with
  | S754_finite s _ _ | S754_infinity s => s = sx
  | _ => False
  end.
Proof.
  intros Hd. unfold binary_round, shl_align.
  destruct (fexp (Zpos (digits2_pos p) + e) - e) as [|d|d] eqn:E;
    apply binary_round_aux_nonzero; cbv beta iota delta [Zdigits2]; try lia.
  rewrite Zdigits2_shl. lia.
Qed.

Lemma shr_1_exact m : 0 <= m ->
  shr_1 {| shr_m := 2 * m; shr_r := false; shr_s := false |}
  = {| shr_m := m; shr_r := false; shr_s := false |}.
Proof. destruct m as [|q|q]; try lia; reflexivity. Qed.

(** Shifting out zero bits loses nothing. *)
Lemma iter_shr_1_exact p : forall m, 0 <= m ->
  SpecFloat.iter_pos shr_1 p {| shr_m := m * 2 ^ Zpos p; shr_r := false; shr_s := false |}
  = {| shr_m := m; shr_r := false; shr_s := false |}.
Proof.
  induction p as [p IH|p IH|]; intros m Hm; cbn [SpecFloat.iter_pos].
  - replace (m * 2 ^ Zpos p~1) with (2 * ((m * 2 ^ Zpos p) * 2 ^ Zpos p)).
    + rewrite shr_1_exact by (apply Z.mul_nonneg_nonneg; [apply Z.mul_nonneg_nonneg|]; lia).
      rewrite IH by (apply Z.mul_nonneg_nonneg; lia). apply IH, Hm.
    + assert (E : 2 ^ Zpos p~1 = 2 * (2 ^ Zpos p * 2 ^ Zpos p)).
      { rewrite <- Z.pow_add_r, <- Z.pow_succ_r by lia. f_equal. lia. }
      rewrite E. ring.
  - replace (m * 2 ^ Zpos p~0) with ((m * 2 ^ Zpos p) * 2 ^ Zpos p).
    + rewrite IH by (apply Z.mul_nonneg_nonneg; lia). apply IH, Hm.
    + assert (E : 2 ^ Zpos p~0 = 2 ^ Zpos p * 2 ^ Zpos p).
      { rewrite <- Z.pow_add_r by lia. f_equal. lia. }
      rewrite E. ring.
  - rewrite Z.pow_1_r, Z.mul_comm. apply shr_1_exact, Hm.
Qed.

Lemma Zdigits2_mul_pow2 m k : 0 < m -> 0 <= k -> Zdigits2 (m * 2 ^ k) = Zdigits2 m + k.
Proof.
  intros Hm Hk. assert (0 < m * 2 ^ k) by (apply Z.mul_pos_pos; [|apply Z.pow_pos_nonneg]; lia).
  rewrite !(Zdigits2_log2) by assumption. rewrite Z.log2_mul_pow2 by lia. lia.
Qed.

Lemma Zpos_iter_xO p k : Zpos (Pos.iter xO p k) = Zpos p * 2 ^ Zpos k.
Proof.
  induction k using Pos.peano_ind.
  - simpl. lia.
  - rewrite Pos.iter_succ, Pos2Z.inj_xO, IHk, Pos2Z.inj_succ, Z.pow_succ_r by lia. ring.
Qed.

(** A mantissa of [prec] digits followed by [k] zero bits rounds to itself. *)
Lemma binary_round_aux_exact s m k e :
  0 < m -> Zdigits2 m = prec -> 0 <= k -> emin <= e + k -> e + k <= emax - prec ->
  binary_round_aux prec emax s (m * 2 ^ k) e loc_Exact = S754_finite s (Z.to_pos m) (e + k).
Proof.
  intros Hm Hd Hk Hlo Hhi. unfold binary_round_aux, shr_fexp.
  rewrite Zdigits2_mul_pow2, Hd by assumption.
  replace (fexp (prec + k + e) - e) with k by (unfold SpecFloat.fexp; lia).
  assert (S1 : shr (shr_record_of_loc (m * 2 ^ k) loc_Exact) e k
               = ({| shr_m := m; shr_r := false; shr_s := false |}, e + k)).
  { destruct k as [|p|p]; try lia; simpl.
    - rewrite Z.mul_1_r, Z.add_0_r. reflexivity.
    - rewrite iter_shr_1_exact by lia. reflexivity. }
  rewrite S1. cbn [shr_m loc_of_shr_record round_nearest_even shr_record_of_loc].
  rewrite Hd. replace (fexp (prec + (e + k)) - (e + k)) with 0 by (unfold SpecFloat.fexp; lia).
  cbn [shr shr_m]. destruct m as [|q|q]; try lia.
  apply Z.leb_le in Hhi. rewrite Hhi. reflexivity.
Qed.

(** An integer below [2^prec], written with [j] extra zero bits, is
    represented exactly. *)
Lemma binary_round_exact s n j :
  0 < n -> Zdigits2 n <= prec -> 0 <= j ->
  emin <= Zdigits2 n - prec -> Zdigits2 n <= emax ->
  binary_round prec emax s (Z.to_pos (n * 2 ^ j)) (- j)
  = S754_finite s (Z.to_pos (n * 2 ^ (prec - Zdigits2 n))) (Zdigits2 n - prec).
Proof.
  intros Hn Hd Hj Hlo Hhi. set (d := Zdigits2 n) in *.
  assert (HP : 0 < n * 2 ^ j) by (apply Z.mul_pos_pos; [|apply Z.pow_pos_nonneg]; lia).
  assert (Hm : 0 < n * 2 ^ (prec - d)) by (apply Z.mul_pos_pos; [|apply Z.pow_pos_nonneg]; lia).
  assert (Hmd : Zdigits2 (n * 2 ^ (prec - d)) = prec).
  { rewrite Zdigits2_mul_pow2 by lia. fold d. lia. }
  unfold binary_round, shl_align.
  change (Zpos (digits2_pos (Z.to_pos (n * 2 ^ j)))) with (Zdigits2 (Zpos (Z.to_pos (n * 2 ^ j)))).
  rewrite Z2Pos.id, Zdigits2_mul_pow2 by lia. fold d.
  replace (fexp (d + j + - j)) with (d - prec) by (unfold SpecFloat.fexp; lia).
  destruct (d - prec - - j) as [|k|k] eqn:E.
  - rewrite Z2Pos.id by lia.
    replace (n * 2 ^ j) with (n * 2 ^ (prec - d) * 2 ^ 0)
      by (rewrite Z.mul_1_r; do 2 f_equal; lia).
    rewrite binary_round_aux_exact by lia. f_equal. lia.
  - rewrite Z2Pos.id by lia.
    replace (n * 2 ^ j) with (n * 2 ^ (prec - d) * 2 ^ Zpos k)
      by (rewrite <- Z.mul_assoc, <- Z.pow_add_r by lia; do 2 f_equal; lia).
    rewrite binary_round_aux_exact by lia. f_equal. lia.
  - rewrite Zpos_iter_xO, Z2Pos.id by lia.
    replace (n * 2 ^ j * 2 ^ Zpos k) with (n * 2 ^ (prec - d) * 2 ^ 0)
      by (rewrite Z.mul_1_r, <- Z.mul_assoc, <- Z.pow_add_r by lia; do 2 f_equal; lia).
    rewrite binary_round_aux_exact by lia. f_equal. lia.
Qed.

End Rounding.

(** * Facts about binary64 numbers *)

Lemma valid_binary_emin s m e :
  valid_binary (S754_finite s m e) = true -> SpecFloat.emin prec emax <= e.
Proof.
  unfold SpecFloat.valid_binary, bounded, canonical_mantissa, SpecFloat.fexp.
  intros H. apply andb_prop in H as [H _]. apply Z.eqb_eq in H. lia.
Qed.

(** The sum of two finite numbers is not the negative zero, and it has the
    sign of its operands when they agree. *)
Lemma SFadd_finite sx mx ex sy my ey :
  valid_binary (S754_finite sx mx ex) = true ->
  valid_binary (S754_finite sy my ey) = true ->
  match SF64add (S754_finite sx mx ex) (S754_finite sy my ey) with
  | S754_zero s => s = false /\ sx <> sy
  | S754_finite s _ _ | S754_infinity s => sx = sy -> s = sx
  | S754_nan => False
  end.
Proof.
  intros Vx Vy. apply valid_binary_emin in Vx, Vy.
  unfold SF64add, SFadd.
  set (a := fst (shl_align mx ex (Z.min ex ey))).
  set (b := fst (shl_align my ey (Z.min ex ey))).
  assert (Hmin : SpecFloat.emin prec emax <= Z.min ex ey) by lia.
  assert (R : forall s p,
    match binary_round prec emax s p (Z.min ex ey) with
    | S754_finite s' _ _ | S754_infinity s' => s' = s
    | _ => False
    end).
  { intros s p. apply binary_round_nonzero; [reflexivity | lia]. }
  unfold binary_normalize.
  destruct (cond_Zopp sx (Zpos a) + cond_Zopp sy (Zpos b)) as [|p|p] eqn:E.
  - split; [reflexivity|]. destruct sx, sy; simpl in E; lia || discriminate.
  - specialize (R false p).
    destruct (binary_round prec emax false p (Z.min ex ey)); try contradiction;
      intros ->; subst; destruct sy; simpl in E; try lia; reflexivity.
  - specialize (R true p).
    destruct (binary_round prec emax true p (Z.min ex ey)); try contradiction;
      intros ->; subst; destruct sy; simpl in E; try lia; reflexivity.
Qed.

Lemma SFadd_positive x y :
  valid_binary x = true -> valid_binary y = true ->
  positive_sf x -> positive_sf y -> positive_sf (SF64add x y).
Proof.
  intros Vx Vy Px Py.
  destruct x as [sx|[|]| |[|] mx ex]; try contradiction;
  destruct y as [sy|[|]| |[|] my ey]; try contradiction; try exact I.
  pose proof (SFadd_finite false mx ex false my ey Vx Vy) as H.
  destruct (SF64add _ _) as [s|s| |s m e]; try contradiction.
  - destruct H as [_ H]. congruence.
  - rewrite H; [exact I | reflexivity].
  - rewrite H; [exact I | reflexivity].
Qed.

Lemma SFadd_not_neg_zero x y :
  valid_binary x = true -> valid_binary y = true ->
  x <> S754_zero true -> SF64add x y <> S754_zero true.
Proof.
  intros Vx Vy Hx.
  destruct x as [[|]|sx| |sx mx ex]; try congruence;
  destruct y as [sy|sy| |sy my ey]; try (simpl; congruence);
    try (destruct sx, sy; simpl; congruence); try (destruct sy; simpl; congruence).
  pose proof (SFadd_finite sx mx ex sy my ey Vx Vy) as H.
  destruct (SF64add _ _) as [s|s| |s m e]; try congruence.
  destruct H as [-> _]. congruence.
Qed.

Lemma SFmul_same_or_zeros a a' b b' :
  same_or_zeros a a' -> same_or_zeros b b' ->
  same_or_zeros (SF64mul a b) (SF64mul a' b').
Proof.
  intros [-> | [Za Za']] [-> | [Zb Zb']]; [left; reflexivity | | |].
  - destruct b as [sb|sb| |sb mb eb]; try contradiction.
    destruct b' as [sb'|sb'| |sb' mb' eb']; try contradiction.
    destruct a' as [sa|sa| |sa ma ea]; simpl; [right | left | left | right];
      (split; exact I) || reflexivity.
  - destruct a as [sa|sa| |sa ma ea]; try contradiction.
    destruct a' as [sa'|sa'| |sa' ma' ea']; try contradiction.
    destruct b' as [sb|sb| |sb mb eb]; simpl; [right | left | left | right];
      (split; exact I) || reflexivity.
  - destruct a as [sa|sa| |sa ma ea]; try contradiction.
    destruct a' as [sa'|sa'| |sa' ma' ea']; try contradiction.
    destruct b as [sb|sb| |sb mb eb]; try contradiction.
    destruct b' as [sb'|sb'| |sb' mb' eb']; try contradiction.
    right. split; exact I.
Qed.

Lemma SFadd_same_or_zeros s t t' :
  s <> S754_zero true -> same_or_zeros t t' -> SF64add s t = SF64add s t'.
Proof.
  intros Hs [-> | [Zt Zt']]; [reflexivity|].
  destruct t as [st|st| |st mt et]; try contradiction.
  destruct t' as [st'|st'| |st' mt' et']; try contradiction.
  destruct s as [[|]|ss| |ss ms es]; try congruence; try reflexivity.
  destruct st, st'; reflexivity.
Qed.

Lemma Prim2SF_zero : Prim2SF 0 = S754_zero false.
Proof. vm_compute. reflexivity. Qed.

Lemma Prim2SF_one : Prim2SF 1 = S754_finite false 4503599627370496 (-52).
Proof. vm_compute. reflexivity. Qed.

Lemma shl_align_fst m e e' :
  e' <= e -> Zpos (fst (shl_align m e e')) = Zpos m * 2 ^ (e - e').
Proof.
  intros H. unfold shl_align. destruct (e' - e) as [|k|k] eqn:E; simpl; try lia.
  - replace (e - e') with 0 by lia. lia.
  - rewrite Zpos_iter_xO. do 2 f_equal. lia.
Qed.

Lemma Zdigits2_below n : 0 < n -> n < 2 ^ 53 -> 1 <= Zdigits2 n <= 53.
Proof.
  intros H0 H1. rewrite Zdigits2_log2 by assumption.
  pose proof (Z.log2_nonneg n). pose proof (proj1 (Z.log2_lt_pow2 n 53 H0) H1). lia.
Qed.

Lemma Prim2SF_integer n :
  0 < n -> n < 2 ^ 53 ->
  Prim2SF (integer n)
  = S754_finite false (Z.to_pos (n * 2 ^ (53 - Zdigits2 n))) (Zdigits2 n - 53).
Proof.
  intros H0 H1. unfold integer. rewrite of_uint63_spec, Uint63.of_Z_spec.
  rewrite Z.mod_small by (split; [lia|]; transitivity (2 ^ 53); [assumption | reflexivity]).
  pose proof (Zdigits2_below n H0 H1) as D.
  destruct n as [|p|p]; try lia. unfold binary_normalize.
  pose proof (binary_round_exact prec emax false (Zpos p) 0 H0) as R.
  rewrite Z.mul_1_r in R. simpl Z.to_pos in R at 1. simpl Z.opp in R.
  apply R; unfold SpecFloat.emin, prec, emax; lia.
Qed.

(** Adding one to an integer below [2^53 - 1] is exact. *)
Lemma integer_succ n : 0 <= n -> n + 1 < 2 ^ 53 -> (integer n + 1)%float = integer (n + 1).
Proof.
  intros H0 H1. destruct (Z.eq_dec n 0) as [->|Hn]; [vm_compute; reflexivity|].
  apply Prim2SF_inj. rewrite add_spec, Prim2SF_one, !Prim2SF_integer by lia.
  pose proof (Zdigits2_below n ltac:(lia) ltac:(lia)) as D.
  unfold SF64add, SFadd. rewrite Z.min_r by lia.
  unfold binary_normalize, cond_Zopp.
  rewrite (Pos2Z.inj_add (fst _) (fst _)) || idtac.
  set (a := fst (shl_align _ (Zdigits2 n - 53) (-52))).
  set (b := fst (shl_align 4503599627370496 (-52) (-52))).
  assert (Ha : Zpos a = n * 2 ^ 52).
  { unfold a. rewrite shl_align_fst by lia. rewrite Z2Pos.id
      by (apply Z.mul_pos_pos; [|apply Z.pow_pos_nonneg]; lia).
    rewrite <- Z.mul_assoc, <- Z.pow_add_r by lia. do 2 f_equal. lia. }
  assert (Hb : Zpos b = 2 ^ 52) by reflexivity.
  assert (Hs : Zpos a + Zpos b = Zpos (Z.to_pos ((n + 1) * 2 ^ 52))).
  { rewrite Z2Pos.id by (apply Z.mul_pos_pos; [|apply Z.pow_pos_nonneg]; lia).
    rewrite Ha, Hb. ring. }
  rewrite Hs.
  apply (binary_round_exact prec emax false (n + 1) 52);
    pose proof (Zdigits2_below (n + 1) ltac:(lia) ltac:(lia));
    unfold SpecFloat.emin, prec, emax; lia.
Qed.

Lemma ltb_zero_positive x : (0 <? x)%float = true <-> positive_sf (Prim2SF x).
Proof.
  rewrite FloatAxioms.ltb_spec, Prim2SF_zero.
  destruct (Prim2SF x) as [s|[|]| |[|] m e]; simpl; intuition discriminate.
Qed.

Lemma add_positive x y :
  (0 <? x)%float = true -> (0 <? y)%float = true -> (0 <? x + y)%float = true.
Proof.
  rewrite !ltb_zero_positive, add_spec.
  apply SFadd_positive; apply Prim2SF_valid.
Qed.

Lemma SFeqb_sym x y : SFeqb x y = SFeqb y x.
Proof.
  unfold SFeqb, SFcompare.
  destruct x as [sx|sx| |sx mx ex], y as [sy|sy| |sy my ey]; try reflexivity;
    try (destruct sx, sy; reflexivity); try (destruct sx; reflexivity);
    try (destruct sy; reflexivity).
  destruct sx, sy; try reflexivity;
    destruct (Z.compare_spec ex ey), (Z.compare_spec ey ex); try lia; try reflexivity;
    change (Pos.compare_cont Eq mx my) with (mx ?= my)%positive;
    change (Pos.compare_cont Eq my mx) with (my ?= mx)%positive;
    destruct (Pos.compare_spec mx my), (Pos.compare_spec my mx); try lia; reflexivity.
Qed.

Lemma float_eqb_sym x y : (x =? y)%float = (y =? x)%float.
Proof. rewrite !FloatAxioms.eqb_spec. apply SFeqb_sym. Qed.

Lemma SFeqb_refl x : x <> S754_nan -> SFeqb x x = true.
Proof.
  unfold SFeqb, SFcompare. destruct x as [s|[|]| |[|] m e]; try congruence; intros _;
    try reflexivity; rewrite Z.compare_refl, Pos.compare_cont_refl; reflexivity.
Qed.

Lemma float_eqb_refl_l x y : (x =? y)%float = true -> (x =? x)%float = true.
Proof.
  rewrite !FloatAxioms.eqb_spec. intros H. apply SFeqb_refl. intros E.
  rewrite E in H. discriminate H.
Qed.

Lemma positive_truthy x :
  (0 <? x)%float = true -> (x =? 0)%float = false /\ is_nan x = false.
Proof.
  unfold is_nan. rewrite ltb_zero_positive, !FloatAxioms.eqb_spec, Prim2SF_zero.
  destruct (Prim2SF x) as [s|[|]| |[|] m e] eqn:E; simpl; try contradiction; intros _;
    split; try reflexivity.
  rewrite SFeqb_refl; [reflexivity | discriminate].
Qed.

Lemma leb_zero_not_positive x : (x <=? 0)%float = true -> (0 <? x)%float = false.
Proof.
  rewrite FloatAxioms.leb_spec, FloatAxioms.ltb_spec, Prim2SF_zero.
  destruct (Prim2SF x) as [s|[|]| |[|] m e]; cbv; congruence.
Qed.

Lemma nan_not_positive x : is_nan x = true -> (0 <? x)%float = false.
Proof.
  unfold is_nan. rewrite FloatAxioms.eqb_spec, FloatAxioms.ltb_spec, Prim2SF_zero.
  destruct (Prim2SF x) as [s|[|]| |[|] m e] eqn:E; try reflexivity;
    rewrite SFeqb_refl by discriminate; discriminate.
Qed.

Lemma float_eqb_zero x : (x =? 0)%float = true -> is_zero_sf (Prim2SF x).
Proof.
  rewrite FloatAxioms.eqb_spec, Prim2SF_zero.
  destruct (Prim2SF x) as [s|[|]| |[|] m e]; simpl; try discriminate. intros _. exact I.
Qed.

Lemma integer_not_nan n : 0 <= n -> n < 2 ^ 53 -> is_nan (integer n) = false.
Proof.
  intros H0 H1. destruct (Z.eq_dec n 0) as [->|Hn]; [vm_compute; reflexivity|].
  unfold is_nan. rewrite FloatAxioms.eqb_spec, Prim2SF_integer by lia.
  rewrite SFeqb_refl; [reflexivity | discriminate].
Qed.

Lemma incremented_integer k :
  0 <= k -> k + 1 < 2 ^ 53 -> incremented (VNum (integer k)) = integer (k + 1).
Proof.
  intros H0 H1. unfold incremented. simpl Number.
  rewrite integer_not_nan by lia. apply integer_succ; assumption.
Qed.

(** [(x || 0) + 1]: one for a NaN, [x + 1] for every other number. *)
Lemma num_or_zero_succ x :
  (num_or x 0 + 1)%float = if is_nan x then 1%float else (x + 1)%float.
Proof.
  unfold num_or, ToBoolean.
  destruct (is_nan x) eqn:N.
  - rewrite orb_true_r. reflexivity.
  - rewrite orb_false_r. destruct (x =? 0)%float eqn:Z0; simpl; [|reflexivity].
    apply float_eqb_zero in Z0. apply Prim2SF_inj.
    change (Prim2SF (0 + 1)%float) with (Prim2SF 1). rewrite add_spec, Prim2SF_one.
    destruct (Prim2SF x) as [s| | |]; try contradiction. reflexivity.
Qed.

(** Reading a number with [|| 0] or as "zero when not numeric" agrees up to
    the sign of a zero. *)
Lemma num_or_numeric_or_zero v :
  same_or_zeros (Prim2SF (num_or (Number v) 0)) (Prim2SF (numeric_or_zero v)).
Proof.
  unfold num_or, numeric_or_zero, ToBoolean.
  destruct (is_nan (Number v)) eqn:N.
  - rewrite orb_true_r. left. reflexivity.
  - rewrite orb_false_r. destruct (Number v =? 0)%float eqn:Z0; simpl.
    + right. split; [rewrite Prim2SF_zero; exact I | apply float_eqb_zero, Z0].
    + left. reflexivity.
Qed.

Lemma add_line_total acc i :
  Prim2SF acc <> S754_zero true ->
  (acc + num_or (Number (get i "price")) 0 * num_or (Number (get i "quantity")) 0)%float
  = (acc + line_total i)%float
  /\ Prim2SF (acc + line_total i)%float <> S754_zero true.
Proof.
  intros Hacc. split.
  - apply Prim2SF_inj. unfold line_total. rewrite !add_spec, !mul_spec.
    apply SFadd_same_or_zeros; [assumption|].
    apply SFmul_same_or_zeros; apply num_or_numeric_or_zero.
  - rewrite add_spec. apply SFadd_not_neg_zero; try apply Prim2SF_valid. assumption.
Qed.

(** * The number reading of strings and arrays *)

Example StringToNumber_decimal :
  (StringToNumber " 19.99 ", StringToNumber "-.5e1", StringToNumber "0x1F",
   StringToNumber "", StringToNumber "1e400", StringToNumber "5.")
  = (19.99, -5, 31, 0, infinity, 5)%float.
Proof. vm_compute. reflexivity. Qed.

Example StringToNumber_not_numeric :
  (is_nan (StringToNumber "abc"), is_nan (StringToNumber "1,2"),
   is_nan (StringToNumber "- 1"), is_nan (StringToNumber "."),
   is_nan (StringToNumber "1e"), is_nan (StringToNumber "-0x10"))
  = (true, true, true, true, true, true).
Proof. vm_compute. reflexivity. Qed.

Example Number_of_values :
  (Number VNull, Number (VBool true), Number (VStr " 12 "), Number (VArr 1 []),
   Number (VArr 1 [VStr "3"]), Number (VArr 1 [VArr 2 [VNum 4]]),
   is_nan (Number VUndefined), is_nan (Number (VArr 1 [VNum 1; VNum 2])),
   is_nan (Number (VObj 1 ∅)))
  = (0, 1, 12, 0, 3, 4, true, true, true)%float.
Proof. vm_compute. reflexivity. Qed.

(** * Facts about values and sequences *)

Lemma get_spread_with o k v : get (spread_with o k v) k = v.
Proof. unfold get, spread_with. rewrite lookup_insert_eq. reflexivity. Qed.

Lemma get_spread_with_ne o k k' v : k <> k' -> get (spread_with o k v) k' = get o k'.
Proof. intros H. unfold get, spread_with. rewrite lookup_insert_ne by assumption. reflexivity. Qed.

Lemma strict_eq_sym a b : strict_eq a b = strict_eq b a.
Proof.
  destruct a, b; simpl; try reflexivity.
  - destruct b, b0; reflexivity.
  - apply float_eqb_sym.
  - apply String.eqb_sym.
  - apply N.eqb_sym.
  - apply N.eqb_sym.
Qed.

Lemma strict_eq_refl_l a b : strict_eq a b = true -> strict_eq a a = true.
Proof.
  destruct a, b; simpl; try discriminate; try reflexivity; intros H.
  - apply Bool.eqb_reflx.
  - apply float_eqb_refl_l with (1 := H).
  - apply String.eqb_refl.
  - apply N.eqb_refl.
  - apply N.eqb_refl.
Qed.

(** [findIndex] returns the position of the first match, or -1. *)
Lemma findIndex_from_spec {A} (f : A -> bool) (l : list A) : forall i,
  if existsb f l
  then exists (n : nat) (x : A),
         l !! n = Some x /\ f x = true
         /\ forallb (fun y => negb (f y)) (take n l) = true
         /\ findIndex_from f l i = i + Z.of_nat n
  else forallb (fun y => negb (f y)) l = true /\ findIndex_from f l i = -1.
Proof.
  induction l as [|a l IH]; intros i; simpl.
  - split; reflexivity.
  - destruct (f a) eqn:Fa; simpl.
    + exists 0%nat, a. repeat split; try assumption. lia.
    + specialize (IH (i + 1)). destruct (existsb f l).
      * destruct IH as (n & x & Hl & Hx & Hb & Hi).
        exists (S n), x. simpl. rewrite Fa. repeat split; try assumption. lia.
      * exact IH.
Qed.

Lemma alter_found_entry {A} (f : A -> A) (l : list A) n x :
  l !! n = Some x -> alter f n l = <[n := f x]> l.
Proof.
  revert n. induction l as [|a l IH]; intros [|n] H; simpl in *; try discriminate.
  - injection H as ->. reflexivity.
  - f_equal. apply IH. assumption.
Qed.

Lemma filter_keeps_all {A} (f : A -> bool) (l : list A) :
  forallb f l = true -> List.filter f l = l.
Proof.
  induction l as [|a l IH]; simpl; [reflexivity|].
  intros H. apply andb_prop in H as [Ha Hl]. rewrite Ha, IH by assumption. reflexivity.
Qed.

Lemma existsb_forallb_negb {A} (f : A -> bool) (l : list A) :
  existsb f l = negb (forallb (fun y => negb (f y)) l).
Proof.
  induction l as [|a l IH]; simpl; [reflexivity|].
  rewrite IH. destruct (f a); reflexivity.
Qed.

Lemma forallb_filter_keeps {A} (f g : A -> bool) (l : list A) :
  forallb f l = true -> forallb f (List.filter g l) = true.
Proof.
  induction l as [|a l IH]; simpl; [reflexivity|].
  intros H. apply andb_prop in H as [Ha Hl].
  destruct (g a); simpl; [rewrite Ha|]; auto.
Qed.

Lemma forallb_filter_itself {A} (f : A -> bool) (l : list A) :
  forallb f (List.filter f l) = true.
Proof.
  induction l as [|a l IH]; simpl; [reflexivity|].
  destruct (f a) eqn:E; simpl; [rewrite E|]; auto.
Qed.

(** ** The id-uniqueness part of the invariant *)

Lemma unique_ids_filter f items :
  unique_ids items = true -> unique_ids (List.filter f items) = true.
Proof.
  induction items as [|i rest IH]; simpl; [reflexivity|].
  intros H. apply andb_prop in H as [Hi Hrest].
  destruct (f i); simpl; auto.
  rewrite forallb_filter_keeps, IH by assumption. reflexivity.
Qed.

(** Two sequences with the same ids position by position. *)
Lemma unique_ids_same_ids items items' :
  Forall2 (fun a b : object => get a "id" = get b "id") items items' ->
  unique_ids items' = unique_ids items.
Proof.
  induction 1 as [|a b l l' Hab Hl IH]; simpl; [reflexivity|].
  rewrite IH. f_equal. rewrite Hab.
  clear -Hl. induction Hl as [|c d m m' Hcd _ IHm]; simpl; [reflexivity|].
  rewrite Hcd, IHm. reflexivity.
Qed.

Lemma unique_ids_app_one items i :
  unique_ids (items ++ [i])
  = unique_ids items
    && forallb (fun j => negb (strict_eq (get j "id") (get i "id"))) items.
Proof.
  induction items as [|a rest IH]; simpl; [reflexivity|].
  rewrite IH, forallb_app. simpl.
  destruct (strict_eq (get a "id") (get i "id")); simpl;
    rewrite ?andb_true_r, ?andb_false_r; [reflexivity|].
  rewrite andb_assoc. reflexivity.
Qed.

(** [unique_ids] says that no two entries share an id. *)
Lemma unique_ids_pairwise items :
  unique_ids items = true <->
  (forall (m n : nat) (a b : object),
     m <> n -> items !! m = Some a -> items !! n = Some b ->
     strict_eq (get a "id") (get b "id") = false).
Proof.
  induction items as [|i rest IH]; simpl.
  - split; [|reflexivity]. intros _ m n a b _ H. discriminate H.
  - rewrite andb_true_iff, List.forallb_forall, IH. split.
    + intros [Hi Hrest] [|m] [|n] a b Hmn Ha Hb; simpl in *; try congruence.
      * injection Ha as <-. apply negb_true_iff, Hi, list_elem_of_In.
        apply list_elem_of_lookup. eauto.
      * injection Hb as <-. rewrite strict_eq_sym.
        apply negb_true_iff, Hi, list_elem_of_In. apply list_elem_of_lookup. eauto.
      * apply (Hrest m n); congruence.
    + intros H. split.
      * intros j Hj. apply list_elem_of_In, list_elem_of_lookup in Hj as [n Hn].
        apply negb_true_iff. apply (H 0%nat (S n)); [discriminate | reflexivity | exact Hn].
      * intros m n a b Hmn Ha Hb. apply (H (S m) (S n)); [congruence | exact Ha | exact Hb].
Qed.

Lemma positive_number_above_zero v :
  positive_number v = true -> (0 <? Number v)%float = true.
Proof. destruct v; simpl; try discriminate. auto. Qed.

(** * The cart operations *)

(** The state after [addToCart] is the updater's, whenever React runs it. *)
Lemma addToCart_state when product prev :
  fst (CartProvider.addToCart when product prev)
  = fst (CartProvider.addToCart_update product prev).
Proof.
  unfold CartProvider.addToCart.
  destruct (CartProvider.addToCart_update product prev). reflexivity.
Qed.

Lemma addToCart_any_timing when when' product prev :
  fst (CartProvider.addToCart when product prev)
  = fst (CartProvider.addToCart when' product prev).
Proof. rewrite !addToCart_state. reflexivity. Qed.

(** The two cases of [addToCart]. *)
Lemma addToCart_cases (when : updater_run) (product : object) (prev : list object) :
  if CartProvider.isInCart prev (get product "id") then
    exists (n : nat) (stored : object),
      prev !! n = Some stored
      /\ strict_eq (get stored "id") (get product "id") = true
      /\ CartProvider.isInCart (take n prev) (get product "id") = false
      /\ CartProvider.addToCart when product prev
         = (<[n := <["quantity" :=
                       VNum (incremented (get stored "quantity"))]> stored]> prev,
            [])
  else
    CartProvider.addToCart when product prev
    = (prev ++ [<["quantity" := VNum 1]> product],
       match when with
       | BeforeReturn =>
           [toast_success
              (Template (or_else (get product "title") (VStr "Item")) " added to cart")]
       | AtNextRender => []
       end).
Proof.
  unfold CartProvider.isInCart, CartProvider.addToCart, CartProvider.addToCart_update,
    findIndex.
  pose proof (findIndex_from_spec
                (fun i : object => strict_eq (get i "id") (get product "id")) prev 0) as F.
  destruct (existsb _ prev).
  - destruct F as (n & stored & Hl & Hx & Hb & Hi).
    exists n, stored. rewrite Hi. repeat split; try assumption.
    + rewrite existsb_forallb_negb, Hb. reflexivity.
    + replace (-1 <? 0 + Z.of_nat n) with true by (symmetry; apply Z.ltb_lt; lia).
      replace (Z.to_nat (0 + Z.of_nat n)) with n by lia.
      rewrite (alter_found_entry _ _ _ _ Hl), num_or_zero_succ.
      destruct when; reflexivity.
  - destruct F as [_ Hi]. rewrite Hi. destruct when; reflexivity.
Qed.

(** C1, as the claim states it, fails: an entry whose stored quantity is
    [2^53] keeps that quantity when its product is added again, because
    [2^53 + 1] is [2^53] in binary64. The cart is left as it was, whenever
    React runs the updater. *)
Lemma addToCart_quantity_not_incremented :
  let stored := entry 1 10 9007199254740992 in
  let product := course 1 "A" 10 in
  CartProvider.isInCart [stored] (get product "id") = true
  /\ get stored "quantity" = VNum 9007199254740992
  /\ fst (CartProvider.addToCart BeforeReturn product [stored]) = [stored]
  /\ fst (CartProvider.addToCart AtNextRender product [stored]) = [stored].
Proof. vm_compute. repeat split. Qed.

(** C1, amended. [addToCart], for every cart and product, whenever React
    runs the updater. When an entry with the product's id is present, the
    first such entry [stored] is replaced by [stored] with only its
    [quantity] rewritten, every other field keeping the stored value and
    none coming from the new payload; the new quantity is the stored one
    plus one as JavaScript adds numbers (a stored quantity that is not
    numeric counts as zero), all other entries stay in place and no
    notification is fired. On a stored integer quantity from [0] to
    [2^53 - 2] the sum is exactly the next integer. When no entry has that
    id, the product's fields with [quantity = 1] are appended, and no
    notification is fired other than "added to cart", at most once. *)
Theorem addToCart_increments_or_appends
    (when : updater_run) (product : object) (prev : list object) :
  (if CartProvider.isInCart prev (get product "id") then
     exists (n : nat) (stored : object),
       prev !! n = Some stored
       /\ strict_eq (get stored "id") (get product "id") = true
       /\ CartProvider.isInCart (take n prev) (get product "id") = false
       /\ CartProvider.addToCart when product prev
          = (<[n := <["quantity" :=
                        VNum (incremented (get stored "quantity"))]> stored]> prev,
             [])
   else
     fst (CartProvider.addToCart when product prev)
     = prev ++ [<["quantity" := VNum 1]> product]
     /\ (snd (CartProvider.addToCart when product prev) = []
         \/ snd (CartProvider.addToCart when product prev)
            = [toast_success
                 (Template (or_else (get product "title") (VStr "Item"))
                    " added to cart")]))
  /\ (forall k : Z, 0 <= k -> k + 1 < 2 ^ 53 ->
        incremented (VNum (integer k)) = integer (k + 1)).
Proof.
  split; [|exact incremented_integer].
  pose proof (addToCart_cases when product prev) as H.
  destruct (CartProvider.isInCart prev (get product "id")); [exact H|].
  rewrite H. simpl. split; [reflexivity|]. destruct when; [right|left]; reflexivity.
Qed.

(** A product that is new to a provider which has had an update before is
    appended, and no notification is fired: the flag [added] is tested
    before the updater that sets it has run. *)
Example addToCart_appends_without_notification :
  CartProvider.addToCart AtNextRender (course 2 "B" 5) [entry 1 10 2]
  = ([entry 1 10 2; <["quantity" := VNum 1]> (course 2 "B" 5)], []).
Proof. vm_compute. reflexivity. Qed.

(** A stored quantity that is not numeric becomes [1]. *)
Example addToCart_on_text_quantity :
  let stored : object := {[ "id" := VNum 1; "quantity" := VStr "x" ]} in
  fst (CartProvider.addToCart BeforeReturn (course 1 "A" 10) [stored])
  = [ {[ "id" := VNum 1; "quantity" := VNum 1 ]} ].
Proof. vm_compute. reflexivity. Qed.

Example addToCart_twice :
  let p := course 1 "A" 10 in
  let first := fst (CartProvider.addToCart BeforeReturn p []) in
  let second := fst (CartProvider.addToCart AtNextRender p first) in
  (CartProvider.getTotalItems first, CartProvider.getTotalPrice first,
   CartProvider.getTotalItems second, CartProvider.getTotalPrice second, length second)
  = (1%float, 10%float, 2%float, 20%float, 1%nat).
Proof. vm_compute. reflexivity. Qed.

Lemma same_ids_insert (prev : list object) n stored changed :
  prev !! n = Some stored -> get changed "id" = get stored "id" ->
  Forall2 (fun a b : object => get a "id" = get b "id") prev (<[n := changed]> prev).
Proof.
  revert n. induction prev as [|a l IH]; intros [|n] Hl Hid; simpl in *; try discriminate.
  - injection Hl as ->. constructor; [congruence|].
    clear. induction l; constructor; auto.
  - constructor; [reflexivity | apply IH; assumption].
Qed.

Lemma forallb_insert_at {A} (f : A -> bool) (l : list A) n x :
  forallb f l = true -> f x = true -> forallb f (<[n := x]> l) = true.
Proof.
  revert n. induction l as [|a l IH]; intros [|n] H Hx; simpl in *; auto;
    apply andb_prop in H as [Ha Hl].
  - rewrite Hx, Hl. reflexivity.
  - rewrite Ha, IH by assumption. reflexivity.
Qed.

Lemma forallb_at {A} (f : A -> bool) (l : list A) n x :
  forallb f l = true -> l !! n = Some x -> f x = true.
Proof.
  revert n. induction l as [|a l IH]; intros [|n] H Hl; simpl in *; try discriminate;
    apply andb_prop in H as [Ha Ht].
  - congruence.
  - eapply IH; eassumption.
Qed.

Lemma forallb_filter_implies {A} (f g : A -> bool) (l : list A) :
  Forall (fun x => g x = true -> f x = true) l ->
  forallb f (List.filter g l) = true.
Proof.
  induction 1 as [|a l Ha _ IH]; simpl; [reflexivity|].
  destruct (g a) eqn:G; simpl; [rewrite Ha by reflexivity|]; auto.
Qed.

(** The entry [updateQuantity] writes for a matching id, and its id. *)
Lemma updateQuantity_map_ids id quantity (items : list object) :
  Forall2 (fun a b : object => get a "id" = get b "id") items
    (List.map (fun i => if strict_eq (get i "id") id
                        then spread_with i "quantity" (VNum (Number quantity))
                        else i) items).
Proof.
  induction items as [|a l IH]; simpl; constructor; [|assumption].
  destruct (strict_eq (get a "id") id); [|reflexivity].
  rewrite get_spread_with_ne by discriminate. reflexivity.
Qed.

(** An update to a quantity that is not above zero leaves no entry with the
    targeted id. *)
Lemma updateQuantity_removes_target id quantity items :
  (0 <? Number quantity)%float = false ->
  CartProvider.isInCart (fst (CartProvider.updateQuantity id quantity items)) id = false.
Proof.
  intros Hq. unfold CartProvider.isInCart, CartProvider.updateQuantity. simpl.
  induction items as [|a l IH]; simpl; [reflexivity|].
  destruct (strict_eq (get a "id") id) eqn:E.
  - rewrite get_spread_with. simpl. rewrite Hq. exact IH.
  - destruct (0 <? Number (get a "quantity"))%float; simpl; [rewrite E|]; exact IH.
Qed.

Lemma addToCart_invariant when product items :
  cart_invariant items = true ->
  cart_invariant (fst (CartProvider.addToCart when product items)) = true.
Proof.
  unfold cart_invariant. intros H. apply andb_prop in H as [U P].
  pose proof (addToCart_cases when product items) as C.
  unfold CartProvider.isInCart in C.
  destruct (existsb _ items) eqn:E.
  - destruct C as (n & stored & Hl & Hid & _ & ->). simpl.
    rewrite (unique_ids_same_ids items), U.
    + unfold positive_quantities. apply forallb_insert_at; [exact P|].
      pose proof (forallb_at _ _ _ _ P Hl) as Hs. simpl in Hs.
      change (<["quantity" := ?v]> stored) with (spread_with stored "quantity" v).
      rewrite get_spread_with.
      destruct (get stored "quantity") as [| | |x| | |]; try discriminate.
      unfold incremented. simpl in *.
      destruct (positive_truthy x Hs) as [_ ->].
      apply add_positive; [assumption | reflexivity].
    + apply same_ids_insert with (stored := stored); [assumption|].
      change (<["quantity" := ?v]> stored) with (spread_with stored "quantity" v).
      apply get_spread_with_ne. discriminate.
  - rewrite C. simpl. rewrite unique_ids_app_one, U. simpl.
    change (<["quantity" := ?v]> product) with (spread_with product "quantity" v).
    rewrite get_spread_with_ne by discriminate.
    rewrite existsb_forallb_negb in E. apply negb_false_iff in E. rewrite E. simpl.
    unfold positive_quantities in *. rewrite forallb_app, P. simpl.
    rewrite get_spread_with. reflexivity.
Qed.

Lemma removeFromCart_invariant id items :
  cart_invariant items = true ->
  cart_invariant (fst (CartProvider.removeFromCart id items)) = true.
Proof.
  unfold cart_invariant, positive_quantities. intros H. apply andb_prop in H as [U P]. simpl.
  rewrite unique_ids_filter, forallb_filter_keeps by assumption. reflexivity.
Qed.

Lemma updateQuantity_invariant id quantity items :
  cart_invariant items = true ->
  cart_invariant (fst (CartProvider.updateQuantity id quantity items)) = true.
Proof.
  unfold cart_invariant, positive_quantities. intros H. apply andb_prop in H as [U P]. simpl.
  rewrite unique_ids_filter.
  - simpl. apply forallb_filter_implies.
    clear U. induction items as [|a l IH]; simpl; constructor.
    + simpl in P. apply andb_prop in P as [Pa _].
      destruct (strict_eq (get a "id") id); [|intros _; exact Pa].
      rewrite get_spread_with. simpl. auto.
    + apply IH. simpl in P. apply andb_prop in P as [_ Pl]. exact Pl.
  - rewrite (unique_ids_same_ids items); [exact U | apply updateQuantity_map_ids].
Qed.

(** C2. Every cart operation maps a state with pairwise distinct ids and
    positive numeric quantities to a state with the same two properties
    ([updateQuantity] for any argument, a positive one included); and an
    update to a quantity that is zero or negative removes the entry. *)
Theorem cart_operations_preserve_invariant (items : list object) :
  cart_invariant items = true ->
  (forall when product,
     cart_invariant (fst (CartProvider.addToCart when product items)) = true)
  /\ (forall id, cart_invariant (fst (CartProvider.removeFromCart id items)) = true)
  /\ (forall id quantity,
        cart_invariant (fst (CartProvider.updateQuantity id quantity items)) = true)
  /\ cart_invariant (fst (CartProvider.clearCart items)) = true
  /\ (forall id q, (q <=? 0)%float = true ->
        CartProvider.isInCart
          (fst (CartProvider.updateQuantity id (VNum q) items)) id = false).
Proof.
  intros H. repeat split.
  - intros when product. apply addToCart_invariant, H.
  - intros id. apply removeFromCart_invariant, H.
  - intros id quantity. apply updateQuantity_invariant, H.
  - intros id q Hq. apply updateQuantity_removes_target. simpl.
    apply leb_zero_not_positive, Hq.
Qed.

Lemma cart_operations_preserve_invariant_witness :
  let items := [entry 1 10 2; entry 2 5 1] in
  cart_invariant items = true
  /\ cart_invariant
       (fst (CartProvider.addToCart AtNextRender (course 1 "A" 10) items)) = true
  /\ CartProvider.isInCart
       (fst (CartProvider.updateQuantity (VNum 2) (VNum 0) items)) (VNum 2) = false.
Proof.
  assert (H : cart_invariant [entry 1 10 2; entry 2 5 1] = true) by (vm_compute; reflexivity).
  pose proof (cart_operations_preserve_invariant _ H) as (A & _ & _ & _ & U).
  split; [exact H | split].
  - apply A.
  - apply U. vm_compute. reflexivity.
Defined.

(** [updateQuantity] on a cart whose quantities are all above zero. *)
Lemma updateQuantity_not_above_zero id quantity items :
  forallb quantity_above_zero items = true ->
  (0 <? Number quantity)%float = false ->
  fst (CartProvider.updateQuantity id quantity items)
  = fst (CartProvider.removeFromCart id items).
Proof.
  intros P Hq. simpl. induction items as [|a l IH]; simpl; [reflexivity|].
  simpl in P. apply andb_prop in P as [Pa Pl].
  destruct (strict_eq (get a "id") id) eqn:E; simpl.
  - rewrite get_spread_with. simpl. rewrite Hq. apply IH, Pl.
  - unfold quantity_above_zero in Pa. rewrite Pa. f_equal. apply IH, Pl.
Qed.

Lemma updateQuantity_above_zero id quantity items :
  forallb quantity_above_zero items = true ->
  (0 <? Number quantity)%float = true ->
  fst (CartProvider.updateQuantity id quantity items)
  = List.map (fun i => if strict_eq (get i "id") id
                       then <["quantity" := VNum (Number quantity)]> i else i) items.
Proof.
  intros P Hq. simpl. apply filter_keeps_all.
  induction items as [|a l IH]; simpl; [reflexivity|].
  simpl in P. apply andb_prop in P as [Pa Pl]. rewrite (IH Pl), andb_true_r.
  destruct (strict_eq (get a "id") id); [|exact Pa].
  change (<["quantity" := ?v]> a) with (spread_with a "quantity" v).
  rewrite get_spread_with. exact Hq.
Qed.

Lemma updateQuantity_absent id quantity items :
  forallb quantity_above_zero items = true ->
  CartProvider.isInCart items id = false ->
  fst (CartProvider.updateQuantity id quantity items) = items.
Proof.
  intros P A. simpl.
  assert (M : List.map (fun i => if strict_eq (get i "id") id
                                 then spread_with i "quantity" (VNum (Number quantity))
                                 else i) items = items).
  { clear P. induction items as [|a l IH]; simpl; [reflexivity|].
    simpl in A. apply orb_false_elim in A as [Ea El]. rewrite Ea, (IH El). reflexivity. }
  rewrite M. apply filter_keeps_all, P.
Qed.

(** C3, as the claim states it, fails on a cart that holds an entry whose
    quantity is not above zero: an update for an id that is absent empties
    the cart below, and an update to zero drops more than [removeFromCart]
    does. *)
Lemma updateQuantity_drops_other_entries :
  (CartProvider.isInCart [entry 1 10 0] (VNum 2) = false
   /\ fst (CartProvider.updateQuantity (VNum 2) (VNum 5) [entry 1 10 0]) = []
   /\ fst (CartProvider.updateQuantity (VNum 2) (VNum 5) [entry 1 10 0])
      <> [entry 1 10 0])
  /\ (fst (CartProvider.updateQuantity (VNum 1) (VNum 0) [entry 1 10 2; entry 2 5 0]) = []
      /\ fst (CartProvider.removeFromCart (VNum 1) [entry 1 10 2; entry 2 5 0])
         = [entry 2 5 0]).
Proof.
  assert (E : fst (CartProvider.updateQuantity (VNum 2) (VNum 5) [entry 1 10 0]) = [])
    by (vm_compute; reflexivity).
  repeat split; try (vm_compute; reflexivity).
  rewrite E. discriminate.
Qed.

(** C3, amended. On a cart whose entries all have a quantity above zero:
    [updateQuantity(id, q)] with [q <= 0] yields the state [removeFromCart]
    yields, with no entry of that id left; with [q > 0] it sets the quantity
    of the entries with that id to [q], their other fields and all other
    entries untouched; with no entry of that id the state is unchanged; and
    no notification is fired. *)
Theorem updateQuantity_on_positive_cart (items : list object) (id : value) (q : float) :
  forallb quantity_above_zero items = true ->
  snd (CartProvider.updateQuantity id (VNum q) items) = []
  /\ ((q <=? 0)%float = true ->
        fst (CartProvider.updateQuantity id (VNum q) items)
        = fst (CartProvider.removeFromCart id items)
        /\ CartProvider.isInCart
             (fst (CartProvider.updateQuantity id (VNum q) items)) id = false)
  /\ ((0 <? q)%float = true ->
        fst (CartProvider.updateQuantity id (VNum q) items)
        = List.map (fun i => if strict_eq (get i "id") id
                             then <["quantity" := VNum q]> i else i) items)
  /\ (CartProvider.isInCart items id = false ->
        fst (CartProvider.updateQuantity id (VNum q) items) = items).
Proof.
  intros P. split; [reflexivity | split; [|split]].
  - intros Hq. apply leb_zero_not_positive in Hq. split.
    + apply updateQuantity_not_above_zero; assumption.
    + apply updateQuantity_removes_target. exact Hq.
  - intros Hq. apply (updateQuantity_above_zero id (VNum q)); assumption.
  - intros A. apply updateQuantity_absent; assumption.
Qed.

Lemma updateQuantity_on_positive_cart_witness :
  let items := [entry 1 10 2; entry 2 5 1] in
  forallb quantity_above_zero items = true
  /\ fst (CartProvider.updateQuantity (VNum 2) (VNum 0) items) = [entry 1 10 2]
  /\ fst (CartProvider.updateQuantity (VNum 2) (VNum 4) items)
     = [entry 1 10 2; entry 2 5 4]
  /\ fst (CartProvider.updateQuantity (VNum 3) (VNum 4) items) = items.
Proof.
  assert (P : forallb quantity_above_zero [entry 1 10 2; entry 2 5 1] = true)
    by (vm_compute; reflexivity).
  split; [exact P | split; [|split]].
  - destruct (updateQuantity_on_positive_cart _ (VNum 2) 0 P) as (_ & R & _ & _).
    destruct R as [R _]; [vm_compute; reflexivity|]. rewrite R. vm_compute. reflexivity.
  - destruct (updateQuantity_on_positive_cart _ (VNum 2) 4 P) as (_ & _ & R & _).
    rewrite R by (vm_compute; reflexivity). vm_compute. reflexivity.
  - destruct (updateQuantity_on_positive_cart _ (VNum 3) 4 P) as (_ & _ & _ & R).
    apply R. vm_compute. reflexivity.
Defined.

Lemma existsb_filter_negb {A} (f : A -> bool) (l : list A) :
  existsb f (List.filter (fun x => negb (f x)) l) = false.
Proof.
  induction l as [|a l IH]; simpl; [reflexivity|].
  destruct (f a) eqn:E; simpl; [|rewrite E]; exact IH.
Qed.

Lemma filter_negb_absent {A} (f : A -> bool) (l : list A) :
  existsb f l = false -> List.filter (fun x => negb (f x)) l = l.
Proof.
  intros H. apply filter_keeps_all. rewrite existsb_forallb_negb in H.
  apply negb_false_iff in H. exact H.
Qed.

Lemma filter_shorter {A} (f : A -> bool) (l : list A) :
  existsb f l = true -> (length (List.filter (fun x => negb (f x)) l) < length l)%nat.
Proof.
  induction l as [|a l IH]; simpl; [discriminate|].
  destruct (f a); simpl.
  - intros _. pose proof (List.filter_length_le (fun x => negb (f x)) l). lia.
  - intros H. specialize (IH H). lia.
Qed.

(** C4. [removeFromCart(id)]: the entries with another id are kept as they
    are and in their order, no entry with the id is left; when no entry had
    the id the sequence is unchanged and nothing is raised; and exactly one
    "Removed from cart" notification is fired in both cases. *)
Theorem removeFromCart_removes_and_notifies (items : list object) (id : value) :
  snd (CartProvider.removeFromCart id items) = [toast_error (Text "Removed from cart")]
  /\ fst (CartProvider.removeFromCart id items)
     = List.filter (fun i => negb (strict_eq (get i "id") id)) items
  /\ CartProvider.isInCart (fst (CartProvider.removeFromCart id items)) id = false
  /\ (if CartProvider.isInCart items id
      then (length (fst (CartProvider.removeFromCart id items)) < length items)%nat
      else fst (CartProvider.removeFromCart id items) = items).
Proof.
  unfold CartProvider.isInCart. simpl. repeat split.
  - apply (existsb_filter_negb (fun i : object => strict_eq (get i "id") id)).
  - destruct (existsb _ items) eqn:E.
    + apply (filter_shorter (fun i : object => strict_eq (get i "id") id)), E.
    + apply (filter_negb_absent (fun i : object => strict_eq (get i "id") id)), E.
Qed.

Example removeFromCart_absent_still_notifies :
  CartProvider.removeFromCart (VNum 9) [entry 1 10 2]
  = ([entry 1 10 2], [toast_error (Text "Removed from cart")]).
Proof. vm_compute. reflexivity. Qed.

(** * The wishlist *)

Lemma addToWishlist_cases when product prev :
  WishlistProvider.addToWishlist when product prev
  = if WishlistProvider.isInWishlist prev (get product "id")
    then (prev, [])
    else (prev ++ [product],
          match when with
          | BeforeReturn =>
              [toast_success
                 (Template (or_else (get product "title") (VStr "Item"))
                    " added to wishlist")]
          | AtNextRender => []
          end).
Proof.
  unfold WishlistProvider.addToWishlist, WishlistProvider.addToWishlist_update,
    WishlistProvider.isInWishlist.
  destruct (existsb _ prev), when; reflexivity.
Qed.

Lemma addToWishlist_state when product prev :
  fst (WishlistProvider.addToWishlist when product prev)
  = fst (WishlistProvider.addToWishlist_update product prev).
Proof.
  unfold WishlistProvider.addToWishlist.
  destruct (WishlistProvider.addToWishlist_update product prev). reflexivity.
Qed.

Lemma count_id_absent items id :
  existsb (fun i : object => strict_eq (get i "id") id) items = false ->
  count_id items id = 0%nat.
Proof.
  unfold count_id. induction items as [|a l IH]; simpl; [reflexivity|].
  intros H. apply orb_false_elim in H as [Ha Hl]. rewrite Ha. apply IH, Hl.
Qed.

(** Adding to the wishlist is idempotent on the id, whenever React runs the
    updaters. A product whose id is present leaves the wishlist unchanged
    and fires nothing. From a state without the id, two calls with the same
    id store exactly one entry for it, the first product; the second call
    fires nothing, and the first fires the "added to wishlist" notification
    only if React ran its updater before [setItems] returned. *)
Lemma addToWishlist_same_id_twice
    (when_first when_second : updater_run) (items : list object) (first second : object) :
  (WishlistProvider.isInWishlist items (get first "id") = true ->
     WishlistProvider.addToWishlist when_first first items = (items, []))
  /\ (WishlistProvider.isInWishlist items (get first "id") = false ->
      strict_eq (get first "id") (get second "id") = true ->
      let '(once, fired_first) :=
        WishlistProvider.addToWishlist when_first first items in
      let '(twice, fired_second) :=
        WishlistProvider.addToWishlist when_second second once in
      twice = items ++ [first]
      /\ count_id twice (get first "id") = 1%nat
      /\ fired_second = []
      /\ fired_first
         = match when_first with
           | BeforeReturn =>
               [toast_success
                  (Template (or_else (get first "title") (VStr "Item"))
                     " added to wishlist")]
           | AtNextRender => []
           end).
Proof.
  split.
  - intros H. rewrite addToWishlist_cases, H. reflexivity.
  - intros A S. rewrite addToWishlist_cases, A.
    rewrite addToWishlist_cases.
    unfold WishlistProvider.isInWishlist in *. rewrite existsb_app. simpl.
    rewrite S, orb_true_r. repeat split.
    unfold count_id. rewrite List.filter_app, length_app. simpl.
    rewrite (strict_eq_refl_l _ _ S). simpl.
    change (length (List.filter _ items)) with (count_id items (get first "id")).
    rewrite count_id_absent by exact A. reflexivity.
Qed.

(** C5. The code against the claim. The wishlist holds one course and its
    provider has had an update before, so React queues the updaters and
    runs them when the provider renders next. [addToWishlist] is called
    twice with a course that is not in the wishlist: the course is stored
    once, as the claim says, but no "added to wishlist" notification is
    fired in either call, where the claim has exactly one: the flag [added]
    is tested before the updater that sets it has run. *)
Theorem addToWishlist_twice_fires_nothing :
  let kept := course 2 "B" 20 in
  let product := course 1 "A" 10 in
  let '(once, fired_first) :=
    WishlistProvider.addToWishlist AtNextRender product [kept] in
  let '(twice, fired_second) :=
    WishlistProvider.addToWishlist AtNextRender product once in
  WishlistProvider.isInWishlist [kept] (get product "id") = false
  /\ twice = [kept; product]
  /\ count_id twice (get product "id") = 1%nat
  /\ fired_first ++ fired_second = [].
Proof. vm_compute. repeat split. Qed.

(** On a provider with no update pending the first of the two calls does
    fire the notification. *)
Example addToWishlist_on_a_fresh_provider :
  let product := course 1 "A" 10 in
  let '(once, fired_first) := WishlistProvider.addToWishlist BeforeReturn product [] in
  let '(twice, fired_second) := WishlistProvider.addToWishlist AtNextRender product once in
  twice = [product]
  /\ fired_first ++ fired_second
     = [toast_success (Template (VStr "A") " added to wishlist")].
Proof. vm_compute. split; reflexivity. Qed.

(** * The loader *)

Lemma safeGet_stored env key :
  safeGet env key
  = match stored_under env key with Stored v => v | _ => VNull end.
Proof.
  unfold safeGet, stored_under.
  destruct (window_defined env); simpl; [|reflexivity].
  destruct (localStorage_getItem env key) as [[raw|]|]; try reflexivity.
  destruct (String.eqb raw ""); simpl; [reflexivity|].
  destruct (JSON_parse env raw); reflexivity.
Qed.

Lemma initial_items_of_value env key :
  initial_items env key = Returns (stored_shape_items (safeGet env key)).
Proof.
  unfold initial_items.
  destruct (safeGet env key) as [| |b|x|s|c elems|c props]; simpl; try reflexivity.
  - destruct b; reflexivity.
  - destruct (negb _); reflexivity.
  - destruct (negb _); reflexivity.
  - destruct (get props "items"); reflexivity.
Qed.

(** C6. The loader always returns and never raises. Its result is the
    contained [items] sequence for a stored object that has one, the
    sequence itself for a stored bare sequence, and the empty sequence for
    every other stored value, for an absent key, for a payload that does not
    parse and for a store that cannot be read; for every key, the cart's and
    the wishlist's included. *)
Theorem initial_items_accepts_three_shapes (env : environment) (key : string) :
  initial_items env key
  = Returns match stored_under env key with
            | Stored v => stored_shape_items v
            | StorageUnavailable | KeyAbsent | Unparsable => []
            end.
Proof.
  rewrite initial_items_of_value, safeGet_stored.
  destruct (stored_under env key); reflexivity.
Qed.

Example initial_items_object_shape :
  forall env raw c c' props entries,
    window_defined env = true ->
    localStorage_getItem env "cart" = Returns (Some raw) ->
    raw <> "" ->
    JSON_parse env raw = Returns (VObj c props) ->
    props !! "items" = Some (VArr c' entries) ->
    initial_items env "cart" = Returns entries.
Proof.
  intros env raw c c' props entries W G N J I.
  rewrite initial_items_of_value, safeGet_stored. unfold stored_under.
  rewrite W, G. apply String.eqb_neq in N. rewrite N, J. simpl.
  unfold get. rewrite I. reflexivity.
Qed.

(** C10. The loader hands the stored entries on as they are. A store
    holding a bare sequence of two entries with the same id, the first with
    quantity zero, is accepted: the initial cart is that sequence, and it has
    neither distinct ids nor positive quantities. The same entries stored
    under an [items] property load the same way. *)
Theorem initial_items_not_validated :
  exists (bare current : environment) (c1 c2 : N) (first second : object),
    initial_items bare "cart" = Returns [VObj c1 first; VObj c2 second]
    /\ initial_items current "cart" = Returns [VObj c1 first; VObj c2 second]
    /\ unique_ids [first; second] = false
    /\ positive_quantities [first; second] = false
    /\ cart_invariant [first; second] = false.
Proof.
  exists (store_holding "cart" legacy_cart_text legacy_cart_value),
         (store_holding "cart" current_cart_text current_cart_value),
         2%N, 3%N, legacy_cart_first, legacy_cart_second.
  repeat split; vm_compute; reflexivity.
Qed.

(** * Totals *)

Lemma getTotalPrice_from acc items :
  Prim2SF acc <> S754_zero true ->
  fold_left (fun s i => (s + num_or (Number (get i "price")) 0
                            * num_or (Number (get i "quantity")) 0)%float) items acc
  = sum_line_totals acc items.
Proof.
  revert acc. induction items as [|i rest IH]; intros acc Hacc; simpl; [reflexivity|].
  destruct (add_line_total acc i Hacc) as [E N]. rewrite E. apply IH, N.
Qed.

(** C7, as the claim states it, fails on its own example: the total of
    19.99 twice and 49.00 once is not the number 88.98. *)
Lemma getTotalPrice_example_is_not_88_98 :
  CartProvider.getTotalPrice [entry 1 19.99 2; entry 2 49 1] <> 88.98%float.
Proof.
  intros H. apply (f_equal (fun x => (x =? 88.98)%float)) in H.
  vm_compute in H. discriminate H.
Qed.

(** C7, amended. [getTotalPrice] is the sum of price times quantity over the
    entries, added up in binary64 arithmetic from zero in the order of the
    sequence, a missing or non-numeric price or quantity counting as zero;
    for 19.99 twice and 49.00 once it is 88.97999999999999. *)
Theorem getTotalPrice_is_rounded_sum (items : list object) :
  CartProvider.getTotalPrice items = sum_line_totals 0 items
  /\ CartProvider.getTotalPrice [entry 1 19.99 2; entry 2 49 1]
     = 88.97999999999999%float.
Proof.
  split.
  - apply getTotalPrice_from. rewrite Prim2SF_zero. discriminate.
  - vm_compute. reflexivity.
Qed.

Example line_total_not_numeric :
  (line_total {[ "id" := VNum 1; "quantity" := VNum 2 ]},
   line_total {[ "id" := VNum 1; "price" := VStr "free"; "quantity" := VNum 2 ]},
   line_total {[ "id" := VNum 1; "price" := VStr "7.5"; "quantity" := VNull ]},
   line_total {[ "id" := VNum 1; "price" := VStr "7.5"; "quantity" := VNum 2 ]})
  = (0, 0, 0, 15)%float.
Proof. vm_compute. reflexivity. Qed.

(** * The consumer hooks *)

(** C8. Outside a provider [useCart] and [useWishlist] raise an error whose
    message names the missing provider, and return nothing; inside a provider
    they return the operation set the provider built for its current state. *)
Theorem hooks_require_provider (sc : scope) :
  match nearest_cart sc with
  | None => useCart sc = Throws "useCart must be used within a CartProvider"
  | Some items => useCart sc = Returns (CartProvider_value items)
  end
  /\ match nearest_wishlist sc with
     | None => useWishlist sc = Throws "useWishlist must be used within a WishlistProvider"
     | Some items => useWishlist sc = Returns (WishlistProvider_value items)
     end
  /\ String.index 0 "CartProvider" "useCart must be used within a CartProvider" <> None
  /\ String.index 0 "WishlistProvider"
       "useWishlist must be used within a WishlistProvider" <> None.
Proof.
  unfold useCart, useWishlist, useContext_CartContext, useContext_WishlistContext.
  destruct (nearest_cart sc), (nearest_wishlist sc); repeat split;
    try reflexivity; vm_compute; discriminate.
Qed.

(** * What [updateQuantity] leaves in the cart *)

(** C9. After [updateQuantity(id, q)], for any arguments and any cart,
    every entry left has a quantity whose number is above zero; no entry with
    the targeted id is left when [Number(q)] is not above zero, which
    includes a [q] that is not numeric; and no entry whose quantity was not
    above zero is left, whatever its id. *)
Theorem updateQuantity_leaves_only_positive
    (items : list object) (id quantity : value) :
  let next := fst (CartProvider.updateQuantity id quantity items) in
  forallb quantity_above_zero next = true
  /\ ((0 <? Number quantity)%float = false -> CartProvider.isInCart next id = false)
  /\ (is_nan (Number quantity) = true -> CartProvider.isInCart next id = false)
  /\ (forall stale : object, quantity_above_zero stale = false -> ~ In stale next).
Proof.
  simpl. repeat split.
  - apply (forallb_filter_itself quantity_above_zero).
  - apply updateQuantity_removes_target.
  - intros N. apply updateQuantity_removes_target, nan_not_positive, N.
  - intros stale S I. apply List.filter_In in I as [_ I].
    unfold quantity_above_zero in S. congruence.
Qed.

Example updateQuantity_not_numeric :
  fst (CartProvider.updateQuantity (VNum 1) (VStr "many")
         [entry 1 10 2; entry 2 5 (-1); entry 3 5 1])
  = [entry 3 5 1].
Proof. vm_compute. reflexivity. Qed.

(** * More of the container and its callers *)

(** ** Integers as numbers *)

Lemma Prim2SF_integer_zero : Prim2SF (integer 0) = S754_zero false.
Proof. vm_compute. reflexivity. Qed.

(** Adding two integers whose sum is below [2^53] is exact. *)
Lemma integer_add a b :
  0 <= a -> 0 <= b -> a + b < 2 ^ 53 -> (integer a + integer b)%float = integer (a + b).
Proof.
  intros Ha Hb Hs. apply Prim2SF_inj. rewrite add_spec.
  destruct (Z.eq_dec a 0) as [->|Na]; [|destruct (Z.eq_dec b 0) as [->|Nb]].
  - rewrite Prim2SF_integer_zero, Z.add_0_l.
    destruct (Z.eq_dec b 0) as [->|Nb]; [vm_compute; reflexivity|].
    rewrite Prim2SF_integer by lia. reflexivity.
  - rewrite Prim2SF_integer_zero, Z.add_0_r, Prim2SF_integer by lia. reflexivity.
  - rewrite !Prim2SF_integer by lia.
    pose proof (Zdigits2_below a ltac:(lia) ltac:(lia)) as Da.
    pose proof (Zdigits2_below b ltac:(lia) ltac:(lia)) as Db.
    pose proof (Zdigits2_below (a + b) ltac:(lia) ltac:(lia)) as Dab.
    unfold SF64add, SFadd, binary_normalize, cond_Zopp.
    set (ez := Z.min (Zdigits2 a - 53) (Zdigits2 b - 53)).
    set (x := fst (shl_align _ (Zdigits2 a - 53) ez)).
    set (y := fst (shl_align _ (Zdigits2 b - 53) ez)).
    assert (Hx : Zpos x = a * 2 ^ (- ez)).
    { unfold x. rewrite shl_align_fst by lia. rewrite Z2Pos.id
        by (apply Z.mul_pos_pos; [|apply Z.pow_pos_nonneg]; lia).
      rewrite <- Z.mul_assoc, <- Z.pow_add_r by lia. do 2 f_equal. lia. }
    assert (Hy : Zpos y = b * 2 ^ (- ez)).
    { unfold y. rewrite shl_align_fst by lia. rewrite Z2Pos.id
        by (apply Z.mul_pos_pos; [|apply Z.pow_pos_nonneg]; lia).
      rewrite <- Z.mul_assoc, <- Z.pow_add_r by lia. do 2 f_equal. lia. }
    assert (Hxy : Zpos x + Zpos y = Zpos (Z.to_pos ((a + b) * 2 ^ (- ez)))).
    { rewrite Z2Pos.id by (apply Z.mul_pos_pos; [|apply Z.pow_pos_nonneg]; lia).
      rewrite Hx, Hy. ring. }
    rewrite Hxy. replace ez with (- - ez) at 2 by lia.
    apply (binary_round_exact prec emax false (a + b) (- ez));
      unfold SpecFloat.emin, prec, emax; lia.
Qed.

Lemma integer_positive n : 0 < n -> n < 2 ^ 53 -> (0 <? integer n)%float = true.
Proof.
  intros H0 H1. apply ltb_zero_positive. rewrite Prim2SF_integer by assumption. exact I.
Qed.

(** Subtracting a smaller integer is exact. *)
Lemma integer_sub a b :
  0 <= b -> b <= a -> a < 2 ^ 53 -> (integer a - integer b)%float = integer (a - b).
Proof.
  intros Hb Hab Ha. apply Prim2SF_inj. rewrite sub_spec.
  destruct (Z.eq_dec b 0) as [->|Nb]; [|destruct (Z.eq_dec a b) as [->|Nab]].
  - rewrite Prim2SF_integer_zero, Z.sub_0_r.
    destruct (Z.eq_dec a 0) as [->|Na]; [vm_compute; reflexivity|].
    rewrite Prim2SF_integer by lia. reflexivity.
  - rewrite Z.sub_diag, Prim2SF_integer_zero, Prim2SF_integer by lia.
    unfold SF64sub, SFsub, binary_normalize, cond_Zopp. rewrite Z.sub_diag. reflexivity.
  - rewrite !Prim2SF_integer by lia.
    pose proof (Zdigits2_below a ltac:(lia) ltac:(lia)) as Da.
    pose proof (Zdigits2_below b ltac:(lia) ltac:(lia)) as Db.
    pose proof (Zdigits2_below (a - b) ltac:(lia) ltac:(lia)) as Dab.
    unfold SF64sub, SFsub, binary_normalize, cond_Zopp.
    set (ez := Z.min (Zdigits2 a - 53) (Zdigits2 b - 53)).
    set (x := fst (shl_align _ (Zdigits2 a - 53) ez)).
    set (y := fst (shl_align _ (Zdigits2 b - 53) ez)).
    assert (Hx : Zpos x = a * 2 ^ (- ez)).
    { unfold x. rewrite shl_align_fst by lia. rewrite Z2Pos.id
        by (apply Z.mul_pos_pos; [|apply Z.pow_pos_nonneg]; lia).
      rewrite <- Z.mul_assoc, <- Z.pow_add_r by lia. do 2 f_equal. lia. }
    assert (Hy : Zpos y = b * 2 ^ (- ez)).
    { unfold y. rewrite shl_align_fst by lia. rewrite Z2Pos.id
        by (apply Z.mul_pos_pos; [|apply Z.pow_pos_nonneg]; lia).
      rewrite <- Z.mul_assoc, <- Z.pow_add_r by lia. do 2 f_equal. lia. }
    assert (Hxy : Zpos x - Zpos y = Zpos (Z.to_pos ((a - b) * 2 ^ (- ez)))).
    { rewrite Z2Pos.id by (apply Z.mul_pos_pos; [|apply Z.pow_pos_nonneg]; lia).
      rewrite Hx, Hy. ring. }
    rewrite Hxy. replace ez with (- - ez) at 2 by lia.
    apply (binary_round_exact prec emax false (a - b) (- ez));
      unfold SpecFloat.emin, prec, emax; lia.
Qed.

(** Integers below [2^53] compare as numbers the way they compare as
    integers. *)
Lemma integer_ltb a b :
  0 <= a -> a < 2 ^ 53 -> 0 <= b -> b < 2 ^ 53 ->
  (integer a <? integer b)%float = (a <? b).
Proof.
  intros Ha0 Ha Hb0 Hb. rewrite FloatAxioms.ltb_spec.
  destruct (Z.eq_dec a 0) as [->|Na]; [|destruct (Z.eq_dec b 0) as [->|Nb]].
  - rewrite Prim2SF_integer_zero.
    destruct (Z.eq_dec b 0) as [->|Nb]; [reflexivity|].
    rewrite Prim2SF_integer by lia. symmetry. apply Z.ltb_lt. lia.
  - rewrite Prim2SF_integer_zero, Prim2SF_integer by lia. symmetry. apply Z.ltb_ge. lia.
  - rewrite !Prim2SF_integer by lia.
    pose proof (Zdigits2_below a ltac:(lia) ltac:(lia)) as Da.
    pose proof (Zdigits2_below b ltac:(lia) ltac:(lia)) as Db.
    rewrite !Zdigits2_log2 in * by lia.
    unfold SFltb, SFcompare.
    destruct (Z.compare_spec (Z.log2 a + 1 - 53) (Z.log2 b + 1 - 53)) as [E|E|E].
    + change (Pos.compare_cont Eq ?p ?q) with (p ?= q)%positive.
      rewrite <- Z2Pos.inj_compare
        by (apply Z.mul_pos_pos; [|apply Z.pow_pos_nonneg]; lia).
      replace (Z.log2 b) with (Z.log2 a) by lia.
      assert (P : 0 < 2 ^ (53 - (Z.log2 a + 1))) by (apply Z.pow_pos_nonneg; lia).
      destruct (Z.compare_spec (a * 2 ^ (53 - (Z.log2 a + 1)))
                               (b * 2 ^ (53 - (Z.log2 a + 1)))) as [F|F|F];
        symmetry; [apply Z.ltb_ge | apply Z.ltb_lt | apply Z.ltb_ge]; nia.
    + symmetry. apply Z.ltb_lt.
      destruct (Z_lt_le_dec a b) as [L|L]; [exact L|].
      pose proof (Z.log2_le_mono b a L). lia.
    + symmetry. apply Z.ltb_ge.
      destruct (Z_lt_le_dec a b) as [L|L]; [|exact L].
      pose proof (Z.log2_le_mono a b ltac:(lia)). lia.
Qed.

Lemma integer_truthy k :
  0 <= k -> k < 2 ^ 53 -> num_or (integer k) 0 = integer k.
Proof.
  intros H0 H1. unfold num_or, ToBoolean.
  destruct (Z.eq_dec k 0) as [->|Nk]; [reflexivity|].
  destruct (positive_truthy (integer k)) as [-> ->]; [|reflexivity].
  apply integer_positive; lia.
Qed.

Lemma total_nonneg low items ks :
  0 <= low -> integer_quantities low items ks -> 0 <= total ks.
Proof.
  intros Hl H. induction H as [|i k items ks [_ Hk] _ IH]; simpl; lia.
Qed.

Lemma total_app ks ks' : total (ks ++ ks') = total ks + total ks'.
Proof. induction ks as [|k ks IH]; simpl; lia. Qed.

Lemma total_insert ks (n : nat) k k' :
  ks !! n = Some k -> total (<[n := k']> ks) = total ks - k + k'.
Proof.
  revert n. induction ks as [|a ks IH]; intros [|n] H; simpl in *; try discriminate.
  - injection H as ->. lia.
  - rewrite (IH n H). lia.
Qed.

Lemma total_lookup_le ks (n : nat) k :
  Forall (fun x => 0 <= x) ks -> ks !! n = Some k -> k <= total ks.
Proof.
  intros F. revert n. induction F as [|a ks Ha F IH]; intros [|n] H; simpl in *;
    try discriminate.
  - injection H as ->. clear IH. induction F; simpl in *; lia.
  - specialize (IH n H). lia.
Qed.

Lemma integer_quantities_nonneg low items ks :
  0 <= low -> integer_quantities low items ks -> Forall (fun x => 0 <= x) ks.
Proof.
  intros Hl H. induction H as [|i k items ks [_ Hk] _ IH]; constructor; [lia | exact IH].
Qed.

Lemma getTotalItems_from a items ks :
  integer_quantities 0 items ks -> 0 <= a -> a + total ks < 2 ^ 53 ->
  fold_left (fun s i => (s + num_or (Number (get i "quantity")) 0)%float) items (integer a)
  = integer (a + total ks).
Proof.
  intros H. revert a. induction H as [|i k items ks [Hq Hk] H IH]; intros a Ha Hs; simpl.
  - rewrite Z.add_0_r. reflexivity.
  - pose proof (total_nonneg 0 items ks (Z.le_refl 0) H) as Ht. simpl in Hs.
    rewrite Hq. simpl Number. rewrite integer_truthy, integer_add by lia.
    rewrite IH by lia. f_equal. lia.
Qed.

Lemma getTotalItems_of_integers (items : list object) (ks : list Z) :
  integer_quantities 0 items ks -> total ks < 2 ^ 53 ->
  CartProvider.getTotalItems items = integer (total ks).
Proof.
  intros H Hs. exact (getTotalItems_from 0 items ks H (Z.le_refl 0) Hs).
Qed.

(** X1. On a cart whose quantities are integers from zero up, with a sum
    below [2^53], [getTotalItems] is exactly that sum: the count of items,
    not of entries. *)
Theorem getTotalItems_integer_sum (items : list object) (ks : list Z) :
  integer_quantities 0 items ks -> total ks < 2 ^ 53 ->
  CartProvider.getTotalItems items = integer (total ks).
Proof. exact (getTotalItems_of_integers items ks). Qed.

Ltac integer_entries :=
  repeat first
    [ constructor; [split; [vm_compute; reflexivity | lia] |]
    | constructor ].

Lemma getTotalItems_integer_sum_witness :
  CartProvider.getTotalItems [entry 1 10 2; entry 2 5 3] = integer 5.
Proof.
  apply (getTotalItems_integer_sum _ [2; 3]).
  - unfold integer_quantities. integer_entries.
  - reflexivity.
Defined.

(** The quantities after [addToCart] on a cart of integer quantities. *)
Lemma addToCart_integer_quantities low when product items ks :
  0 <= low -> low <= 1 ->
  integer_quantities low items ks -> total ks + 1 < 2 ^ 53 ->
  exists ks',
    integer_quantities low (fst (CartProvider.addToCart when product items)) ks'
    /\ total ks' = total ks + 1.
Proof.
  intros Hl Hl1 H Hs. pose proof (addToCart_cases when product items) as C.
  pose proof (integer_quantities_nonneg low items ks Hl H) as Hnn.
  destruct (CartProvider.isInCart items (get product "id")).
  - destruct C as (n & stored & Hn & _ & _ & ->). simpl.
    destruct (Forall2_lookup_l _ _ _ _ _ H Hn) as (k & Hk & Hq & Hlow).
    pose proof (total_lookup_le ks n k Hnn Hk) as Hle.
    exists (<[n := k + 1]> ks). split.
    + apply Forall2_insert; [exact H|].
      change (<["quantity" := ?v]> stored) with (spread_with stored "quantity" v).
      rewrite get_spread_with, Hq, incremented_integer by lia. split; [reflexivity | lia].
    + rewrite (total_insert ks n k (k + 1) Hk). lia.
  - rewrite C. simpl. exists (ks ++ [1]). split.
    + apply Forall2_app; [exact H|]. constructor; [|constructor].
      change (<["quantity" := ?v]> product) with (spread_with product "quantity" v).
      rewrite get_spread_with. split; [reflexivity | lia].
    + rewrite total_app. simpl. lia.
Qed.

(** X2. On a cart whose quantities are integers from zero up, with their sum
    plus one below [2^53], every [addToCart] raises [getTotalItems] by
    exactly one, whether the product was new or present. (Without the bound
    it does not: at a quantity of [2^53] the count stays as it is.) *)
Theorem addToCart_counts_one_more
    (when : updater_run) (product : object) (items : list object) (ks : list Z) :
  integer_quantities 0 items ks -> total ks + 1 < 2 ^ 53 ->
  CartProvider.getTotalItems (fst (CartProvider.addToCart when product items))
  = integer (total ks + 1)
  /\ CartProvider.getTotalItems (fst (CartProvider.addToCart when product items))
     = (CartProvider.getTotalItems items + 1)%float.
Proof.
  intros H Hs.
  destruct (addToCart_integer_quantities 0 when product items ks) as (ks' & H' & Ht);
    try assumption; try lia.
  pose proof (total_nonneg 0 items ks (Z.le_refl 0) H) as Hnn.
  rewrite (getTotalItems_of_integers _ ks' H') by lia.
  rewrite (getTotalItems_of_integers _ ks H) by lia.
  rewrite Ht. split; [reflexivity|].
  change 1%float with (integer 1). rewrite integer_add by lia. reflexivity.
Qed.

Lemma addToCart_counts_one_more_witness :
  CartProvider.getTotalItems
    (fst (CartProvider.addToCart AtNextRender (course 2 "B" 5)
            [entry 1 10 2; entry 2 5 3]))
  = integer 6.
Proof.
  apply (addToCart_counts_one_more AtNextRender (course 2 "B" 5) _ [2; 3]).
  - unfold integer_quantities. integer_entries.
  - reflexivity.
Defined.

Example addToCart_count_at_2_53 :
  let items := [entry 1 10 9007199254740992] in
  CartProvider.getTotalItems
    (fst (CartProvider.addToCart AtNextRender (course 1 "A" 10) items))
  = CartProvider.getTotalItems items.
Proof. vm_compute. reflexivity. Qed.

(** ** Membership and order in the cart *)

Lemma existsb_insert_found {A} (f : A -> bool) (l : list A) (n : nat) x x' :
  l !! n = Some x -> f x' = true -> existsb f (<[n := x']> l) = true.
Proof.
  revert n. induction l as [|a l IH]; intros [|n] H Hx; simpl in *; try discriminate.
  - rewrite Hx. reflexivity.
  - rewrite (IH n H Hx). apply orb_true_r.
Qed.

Lemma ids_insert_same_id (items : list object) (n : nat) stored changed :
  items !! n = Some stored -> get changed "id" = get stored "id" ->
  ids (<[n := changed]> items) = ids items.
Proof.
  revert n. induction items as [|a l IH]; intros [|n] H Hid; simpl in *; try discriminate.
  - injection H as ->. rewrite Hid. reflexivity.
  - f_equal. apply IH; assumption.
Qed.

Lemma addToCart_then_isInCart_cases
    (when : updater_run) (product : object) (items : list object) :
  CartProvider.isInCart (fst (CartProvider.addToCart when product items))
    (get product "id")
  = strict_eq (get product "id") (get product "id")
  /\ (strict_eq (get product "id") (get product "id") = false ->
      fst (CartProvider.addToCart when product items)
      = items ++ [<["quantity" := VNum 1]> product]).
Proof.
  pose proof (addToCart_cases when product items) as C.
  destruct (CartProvider.isInCart items (get product "id")) eqn:E.
  - destruct C as (n & stored & Hn & Hid & _ & ->). simpl.
    assert (R : strict_eq (get product "id") (get product "id") = true).
    { rewrite strict_eq_sym in Hid. apply (strict_eq_refl_l _ _ Hid). }
    rewrite R. split; [|discriminate].
    apply (existsb_insert_found _ _ _ stored); [exact Hn|].
    change (<["quantity" := ?v]> stored) with (spread_with stored "quantity" v).
    rewrite get_spread_with_ne by discriminate. exact Hid.
  - rewrite C. simpl. split; [|reflexivity].
    unfold CartProvider.isInCart in *. rewrite existsb_app, E. simpl.
    change (<["quantity" := ?v]> product) with (spread_with product "quantity" v).
    rewrite get_spread_with_ne by discriminate. apply orb_false_r.
Qed.

(** X3. After [addToCart] the cart holds the product's id exactly when the id
    is equal to itself under [===]. A product whose id is not equal to
    itself (NaN) is never found: every call appends one more entry for it,
    whatever the cart holds. *)
Theorem addToCart_then_isInCart
    (when : updater_run) (product : object) (items : list object) :
  CartProvider.isInCart (fst (CartProvider.addToCart when product items))
    (get product "id")
  = strict_eq (get product "id") (get product "id")
  /\ (strict_eq (get product "id") (get product "id") = false ->
      fst (CartProvider.addToCart when product items)
      = items ++ [<["quantity" := VNum 1]> product]).
Proof. exact (addToCart_then_isInCart_cases when product items). Qed.

Lemma addToCart_then_isInCart_witness :
  let unnamed : object := {[ "id" := VNum nan; "title" := VStr "A" ]} in
  fst (CartProvider.addToCart AtNextRender unnamed [<["quantity" := VNum 1]> unnamed])
  = [<["quantity" := VNum 1]> unnamed; <["quantity" := VNum 1]> unnamed].
Proof.
  intros unnamed.
  rewrite (proj2 (addToCart_then_isInCart AtNextRender unnamed
                    [<["quantity" := VNum 1]> unnamed]))
    by (vm_compute; reflexivity).
  vm_compute. reflexivity.
Defined.

Lemma addToCart_ids (when : updater_run) (product : object) (items : list object) :
  ids (fst (CartProvider.addToCart when product items))
  = ids items
    ++ (if CartProvider.isInCart items (get product "id") then []
        else [get product "id"]).
Proof.
  pose proof (addToCart_cases when product items) as C.
  destruct (CartProvider.isInCart items (get product "id")).
  - destruct C as (n & stored & Hn & _ & _ & ->). simpl. rewrite app_nil_r.
    apply (ids_insert_same_id _ _ stored); [exact Hn|].
    change (<["quantity" := ?v]> stored) with (spread_with stored "quantity" v).
    apply get_spread_with_ne. discriminate.
  - rewrite C. simpl. unfold ids. rewrite List.map_app. simpl.
    change (<["quantity" := ?v]> product) with (spread_with product "quantity" v).
    rewrite get_spread_with_ne by discriminate. reflexivity.
Qed.

(** X4. [addToCart] keeps the order of the cart: the ids of the entries are
    the same sequence as before, with the product's id added at the end when
    it was not found. *)
Theorem addToCart_keeps_order
    (when : updater_run) (product : object) (items : list object) :
  ids (fst (CartProvider.addToCart when product items))
  = ids items
    ++ (if CartProvider.isInCart items (get product "id") then []
        else [get product "id"]).
Proof. exact (addToCart_ids when product items). Qed.

(** X5. Adding a product whose id was not in the cart (and is equal to
    itself under [===]) and removing its id again gives back the cart as it
    was. The two calls fire one "Removed from cart" notification, preceded
    by one "added to cart" notification only if React ran the updater of
    [addToCart] before [setItems] returned. *)
Theorem addToCart_then_removeFromCart
    (when : updater_run) (product : object) (items : list object) :
  CartProvider.isInCart items (get product "id") = false ->
  strict_eq (get product "id") (get product "id") = true ->
  let '(added, fired_add) := CartProvider.addToCart when product items in
  let '(removed, fired_remove) := CartProvider.removeFromCart (get product "id") added in
  removed = items
  /\ fired_add ++ fired_remove
     = match when with
       | BeforeReturn =>
           [toast_success
              (Template (or_else (get product "title") (VStr "Item")) " added to cart");
            toast_error (Text "Removed from cart")]
       | AtNextRender => [toast_error (Text "Removed from cart")]
       end.
Proof.
  intros A R. pose proof (addToCart_cases when product items) as C. rewrite A in C.
  rewrite C. simpl. split; [|destruct when; reflexivity].
  rewrite List.filter_app. simpl.
  change (<["quantity" := ?v]> product) with (spread_with product "quantity" v).
  rewrite get_spread_with_ne by discriminate. rewrite R. simpl. rewrite app_nil_r.
  apply (filter_negb_absent (fun i : object => strict_eq (get i "id") (get product "id"))).
  exact A.
Qed.

Lemma addToCart_then_removeFromCart_witness :
  fst (CartProvider.removeFromCart (VNum 3)
         (fst (CartProvider.addToCart AtNextRender (course 3 "C" 7) [entry 1 10 2])))
  = [entry 1 10 2].
Proof.
  pose proof (addToCart_then_removeFromCart AtNextRender (course 3 "C" 7) [entry 1 10 2]
                eq_refl eq_refl) as H.
  destruct (CartProvider.addToCart AtNextRender (course 3 "C" 7) [entry 1 10 2])
    as [added f1] eqn:E.
  simpl. change (get (course 3 "C" 7) "id") with (VNum 3) in H.
  destruct (CartProvider.removeFromCart (VNum 3) added) as [removed f2] eqn:E2.
  simpl in *. injection E2 as <- _. exact (proj1 H).
Defined.

(** ** Updates of a quantity *)

Lemma updateQuantity_step id quantity (a : object) (l : list object) :
  fst (CartProvider.updateQuantity id quantity (a :: l))
  = let a' := if strict_eq (get a "id") id
              then spread_with a "quantity" (VNum (Number quantity)) else a in
    if quantity_above_zero a'
    then a' :: fst (CartProvider.updateQuantity id quantity l)
    else fst (CartProvider.updateQuantity id quantity l).
Proof. reflexivity. Qed.

Lemma spread_with_twice (o : object) k v v' :
  spread_with (spread_with o k v) k v' = spread_with o k v'.
Proof. unfold spread_with. apply insert_insert_eq. Qed.

(** An update of an id after an update of the same id to a quantity above
    zero, or after the same update. *)
Lemma updateQuantity_after id first second items :
  (0 <? Number first)%float = true \/ first = second ->
  fst (CartProvider.updateQuantity id second
         (fst (CartProvider.updateQuantity id first items)))
  = fst (CartProvider.updateQuantity id second items).
Proof.
  intros H. induction items as [|a l IH]; [reflexivity|].
  rewrite (updateQuantity_step id first), (updateQuantity_step id second). cbv zeta.
  destruct (strict_eq (get a "id") id) eqn:E.
  - unfold quantity_above_zero at 1. rewrite get_spread_with. simpl Number.
    destruct (0 <? Number first)%float eqn:P.
    + rewrite updateQuantity_step. cbv zeta.
      rewrite get_spread_with_ne, E, spread_with_twice by discriminate.
      rewrite IH. reflexivity.
    + destruct H as [H|<-]; [discriminate|].
      unfold quantity_above_zero. rewrite get_spread_with. simpl Number. rewrite P.
      exact IH.
  - destruct (quantity_above_zero a) eqn:P.
    + rewrite updateQuantity_step. cbv zeta. rewrite E, P, IH. reflexivity.
    + exact IH.
Qed.

(** X6. Repeating an [updateQuantity] changes nothing more, and of two
    updates of one id, the first to a quantity above zero, only the last
    counts. *)
Theorem updateQuantity_last_wins (id first second : value) (items : list object) :
  fst (CartProvider.updateQuantity id first
         (fst (CartProvider.updateQuantity id first items)))
  = fst (CartProvider.updateQuantity id first items)
  /\ ((0 <? Number first)%float = true ->
      fst (CartProvider.updateQuantity id second
             (fst (CartProvider.updateQuantity id first items)))
      = fst (CartProvider.updateQuantity id second items)).
Proof.
  split.
  - apply updateQuantity_after. right. reflexivity.
  - intros P. apply updateQuantity_after. left. exact P.
Qed.

Lemma updateQuantity_last_wins_witness :
  fst (CartProvider.updateQuantity (VNum 1) (VNum 0)
         (fst (CartProvider.updateQuantity (VNum 1) (VNum 4) [entry 1 10 2; entry 2 5 1])))
  = [entry 2 5 1].
Proof.
  rewrite (proj2 (updateQuantity_last_wins (VNum 1) (VNum 4) (VNum 0) _))
    by (vm_compute; reflexivity).
  vm_compute. reflexivity.
Defined.

(** X7. A cart whose quantities are all above zero stays so under every
    operation; this is the state on which [updateQuantity] touches only the
    entry it is called for. *)
Theorem quantities_stay_above_zero (items : list object) :
  forallb quantity_above_zero items = true ->
  (forall when product,
     forallb quantity_above_zero (fst (CartProvider.addToCart when product items)) = true)
  /\ (forall id,
        forallb quantity_above_zero (fst (CartProvider.removeFromCart id items)) = true)
  /\ (forall id quantity,
        forallb quantity_above_zero
          (fst (CartProvider.updateQuantity id quantity items)) = true)
  /\ forallb quantity_above_zero (fst (CartProvider.clearCart items)) = true.
Proof.
  intros P. repeat split.
  - intros when product. pose proof (addToCart_cases when product items) as C.
    destruct (CartProvider.isInCart items (get product "id")).
    + destruct C as (n & stored & Hn & _ & _ & ->). simpl.
      apply forallb_insert_at; [exact P|].
      pose proof (forallb_at _ _ _ _ P Hn) as Hs.
      unfold quantity_above_zero in *.
      change (<["quantity" := ?v]> stored) with (spread_with stored "quantity" v).
      rewrite get_spread_with. simpl Number. unfold incremented.
      destruct (positive_truthy _ Hs) as [_ ->].
      apply add_positive; [exact Hs | reflexivity].
    + rewrite C. simpl. rewrite forallb_app, P. simpl.
      unfold quantity_above_zero.
      change (<["quantity" := ?v]> product) with (spread_with product "quantity" v).
      rewrite get_spread_with. reflexivity.
  - intros id. simpl. apply forallb_filter_keeps, P.
  - intros id quantity. simpl. apply (forallb_filter_itself quantity_above_zero).
Qed.

Lemma quantities_stay_above_zero_witness :
  forallb quantity_above_zero
    (fst (CartProvider.addToCart AtNextRender (course 1 "A" 10)
            [{[ "id" := VNum 1; "quantity" := VStr "2" ]}])) = true.
Proof.
  assert (P : forallb quantity_above_zero [{[ "id" := VNum 1; "quantity" := VStr "2" ]}]
              = true) by (vm_compute; reflexivity).
  apply (proj1 (quantities_stay_above_zero _ P)).
Defined.

(** ** [===] is a partial equivalence *)

Lemma SFeqb_true x y :
  SFeqb x y = true -> (is_zero_sf x /\ is_zero_sf y) \/ (x = y /\ x <> S754_nan).
Proof.
  unfold SFeqb, SFcompare.
  destruct x as [sx|sx| |sx mx ex], y as [sy|sy| |sy my ey]; try discriminate;
    try (left; split; exact I);
    try (destruct sx; discriminate); try (destruct sy; discriminate).
  - destruct sx, sy; try discriminate; intros _; right;
      (split; [reflexivity | discriminate]).
  - destruct sx, sy; try discriminate;
      destruct (Z.compare_spec ex ey) as [->| |]; try discriminate;
      change (Pos.compare_cont Eq mx my) with (mx ?= my)%positive;
      destruct (Pos.compare_spec mx my) as [->| |]; try discriminate;
      intros _; right; (split; [reflexivity | discriminate]).
Qed.

Lemma SFeqb_zeros x y : is_zero_sf x -> is_zero_sf y -> SFeqb x y = true.
Proof. destruct x, y; simpl; try contradiction. reflexivity. Qed.

Lemma float_eqb_trans x y z :
  (x =? y)%float = true -> (y =? z)%float = true -> (x =? z)%float = true.
Proof.
  rewrite !FloatAxioms.eqb_spec. intros H1 H2.
  destruct (SFeqb_true _ _ H1) as [[Zx Zy]|[E1 N1]], (SFeqb_true _ _ H2) as [[Zy' Zz]|[E2 N2]].
  - apply SFeqb_zeros; assumption.
  - rewrite <- E2. apply SFeqb_zeros; assumption.
  - rewrite E1. apply SFeqb_zeros; assumption.
  - rewrite E1, E2. apply SFeqb_refl. congruence.
Qed.

Lemma strict_eq_trans a b c :
  strict_eq a b = true -> strict_eq b c = true -> strict_eq a c = true.
Proof.
  destruct a, b; simpl; try discriminate; destruct c; simpl; try discriminate; auto.
  - intros H1 H2. apply Bool.eqb_prop in H1, H2. subst. apply Bool.eqb_reflx.
  - apply float_eqb_trans.
  - intros H1 H2. apply String.eqb_eq in H1, H2. subst. apply String.eqb_refl.
  - intros H1 H2. apply N.eqb_eq in H1, H2. subst. apply N.eqb_refl.
  - intros H1 H2. apply N.eqb_eq in H1, H2. subst. apply N.eqb_refl.
Qed.

(** Two ids that differ are not both the id of one entry. *)
Lemma strict_eq_other a id other :
  strict_eq other id = false -> strict_eq a id = true -> strict_eq a other = false.
Proof.
  intros Ho Ha. destruct (strict_eq a other) eqn:E; [|reflexivity].
  rewrite strict_eq_sym in E. rewrite (strict_eq_trans _ _ _ E Ha) in Ho. discriminate.
Qed.

(** ** The wishlist operations *)

(** X8. [removeFromWishlist(id)] keeps exactly the entries whose id is not
    [===] to [id], as they are and in their order (an entry whose id is NaN
    is therefore always kept), and leaves none with the id; the wishlist
    gets shorter when it held the id and is unchanged when it did not; one
    "Removed from wishlist" notification is fired either way. *)
Theorem removeFromWishlist_removes_and_notifies (items : list object) (id : value) :
  snd (WishlistProvider.removeFromWishlist id items)
  = [toast_error (Text "Removed from wishlist")]
  /\ fst (WishlistProvider.removeFromWishlist id items)
     = List.filter (fun i => negb (strict_eq (get i "id") id)) items
  /\ WishlistProvider.isInWishlist
       (fst (WishlistProvider.removeFromWishlist id items)) id = false
  /\ (if WishlistProvider.isInWishlist items id
      then (length (fst (WishlistProvider.removeFromWishlist id items)) < length items)%nat
      else fst (WishlistProvider.removeFromWishlist id items) = items)
  /\ (forall (n : nat) (i : object),
        items !! n = Some i -> strict_eq (get i "id") (get i "id") = false ->
        exists m : nat, fst (WishlistProvider.removeFromWishlist id items) !! m = Some i).
Proof.
  unfold WishlistProvider.isInWishlist. simpl. repeat split.
  - apply (existsb_filter_negb (fun i : object => strict_eq (get i "id") id)).
  - destruct (existsb _ items) eqn:E.
    + apply (filter_shorter (fun i : object => strict_eq (get i "id") id)), E.
    + apply (filter_negb_absent (fun i : object => strict_eq (get i "id") id)), E.
  - intros n i Hn Hi.
    assert (K : strict_eq (get i "id") id = false).
    { destruct (strict_eq (get i "id") id) eqn:E; [|reflexivity].
      rewrite (strict_eq_refl_l _ _ E) in Hi. discriminate. }
    assert (M : In i (List.filter (fun i : object => negb (strict_eq (get i "id") id)) items)).
    { apply List.filter_In. split; [|rewrite K; reflexivity].
      apply list_elem_of_In. eapply list_elem_of_lookup_2. exact Hn. }
    apply list_elem_of_In, list_elem_of_lookup_1 in M. exact M.
Qed.

Lemma addToWishlist_unique when product items :
  unique_ids items = true ->
  unique_ids (fst (WishlistProvider.addToWishlist when product items)) = true.
Proof.
  intros U. rewrite addToWishlist_cases. unfold WishlistProvider.isInWishlist.
  destruct (existsb _ items) eqn:E; simpl; [exact U|].
  rewrite unique_ids_app_one, U. simpl.
  rewrite existsb_forallb_negb in E. apply negb_false_iff in E. exact E.
Qed.

(** X9. The wishlist never holds an id twice: whatever calls are made,
    starting from the empty wishlist, the ids stay pairwise distinct; and
    [addToWishlist] makes the wishlist one entry longer exactly when the id
    was not in it. *)
Theorem wishlist_never_duplicates
    (actions : list wishlist_action) (when : updater_run) (product : object) :
  unique_ids (run wishlist_step actions []) = true
  /\ WishlistProvider.getTotalItems
       (fst (WishlistProvider.addToWishlist when product
               (run wishlist_step actions [])))
     = (WishlistProvider.getTotalItems (run wishlist_step actions [])
        + if WishlistProvider.isInWishlist (run wishlist_step actions []) (get product "id")
          then 0 else 1)%nat.
Proof.
  split.
  - unfold run. generalize (@nil object) (eq_refl : unique_ids [] = true).
    induction actions as [|a actions IH]; intros start U; simpl; [exact U|].
    apply IH. destruct a as [when' p|id]; simpl.
    + apply addToWishlist_unique, U.
    + apply unique_ids_filter, U.
  - rewrite addToWishlist_cases. unfold WishlistProvider.getTotalItems.
    destruct (WishlistProvider.isInWishlist _ _); simpl; [lia|].
    rewrite length_app. simpl. lia.
Qed.

(** X10. The cart invariant holds on every cart reached from the empty cart:
    whatever calls are made, the ids stay pairwise distinct and every
    quantity is a positive number. *)
Theorem cart_invariant_from_empty (actions : list cart_action) :
  cart_invariant (run cart_step actions []) = true.
Proof.
  unfold run. generalize (@nil object) (eq_refl : cart_invariant [] = true).
  induction actions as [|a actions IH]; intros start I; simpl; [exact I|].
  apply IH. destruct a as [when p|id|id q|]; simpl cart_step.
  - apply addToCart_invariant, I.
  - apply removeFromCart_invariant, I.
  - apply updateQuantity_invariant, I.
  - reflexivity.
Qed.

(** ** The handlers of the pages *)

Lemma isInWishlist_after_add when product items :
  WishlistProvider.isInWishlist
    (fst (WishlistProvider.addToWishlist when product items)) (get product "id")
  = WishlistProvider.isInWishlist items (get product "id") || self_equal product.
Proof.
  rewrite addToWishlist_cases. unfold WishlistProvider.isInWishlist.
  destruct (existsb _ items) eqn:E; simpl; [exact E|].
  rewrite existsb_app, E. simpl. apply orb_false_r.
Qed.

(** X11. For a course whose id is equal to itself under [===] (any id but
    NaN): the heart button of a course card flips the course in the
    wishlist and leaves the cart alone; pressed twice on a course that was
    not in the wishlist it gives the wishlist back; without a course it does
    nothing. All of it whenever React runs the updaters. *)
Theorem handleWishlistToggle_flips (when again : updater_run) (c : object) (s : app) :
  self_equal c = true ->
  WishlistProvider.isInWishlist
    (wishlist (CourseCard.handleWishlistToggle when (Some c) s)) (get c "id")
  = negb (WishlistProvider.isInWishlist (wishlist s) (get c "id"))
  /\ cart (CourseCard.handleWishlistToggle when (Some c) s) = cart s
  /\ (WishlistProvider.isInWishlist (wishlist s) (get c "id") = false ->
      wishlist (CourseCard.handleWishlistToggle again (Some c)
                  (CourseCard.handleWishlistToggle when (Some c) s))
      = wishlist s)
  /\ CourseCard.handleWishlistToggle when None s = s.
Proof.
  intros R. unfold CourseCard.handleWishlistToggle.
  destruct (WishlistProvider.isInWishlist (wishlist s) (get c "id")) eqn:E.
  - repeat split; try discriminate. unfold on_wishlist. simpl.
    apply (existsb_filter_negb (fun i : object => strict_eq (get i "id") (get c "id"))).
  - pose proof (addToWishlist_cases when c (wishlist s)) as A. rewrite E in A.
    unfold on_wishlist at 1 2 3. rewrite A. simpl.
    assert (P : WishlistProvider.isInWishlist (wishlist s ++ [c]) (get c "id") = true).
    { unfold WishlistProvider.isInWishlist. rewrite existsb_app. simpl.
      unfold self_equal in R. rewrite R. apply orb_true_r. }
    rewrite P. repeat split.
    intros _. unfold on_wishlist. simpl. rewrite A. simpl. rewrite List.filter_app. simpl.
    unfold self_equal in R. rewrite R. simpl. rewrite app_nil_r.
    apply (filter_negb_absent (fun i : object => strict_eq (get i "id") (get c "id"))).
    exact E.
Qed.

Lemma handleWishlistToggle_flips_witness :
  let s := {| cart := []; wishlist := [course 1 "A" 10]; toasts := [] |} in
  wishlist (CourseCard.handleWishlistToggle AtNextRender (Some (course 2 "B" 5))
              (CourseCard.handleWishlistToggle AtNextRender (Some (course 2 "B" 5)) s))
  = [course 1 "A" 10].
Proof.
  intros s.
  destruct (handleWishlistToggle_flips AtNextRender AtNextRender (course 2 "B" 5) s eq_refl)
    as (_ & _ & H & _).
  apply H. vm_compute. reflexivity.
Defined.

(** A course whose id is NaN is never found in the wishlist: every press of
    the button appends it once more. *)
Example handleWishlistToggle_on_NaN_id :
  let c : object := {[ "id" := VNum nan; "title" := VStr "A" ]} in
  let s := {| cart := []; wishlist := []; toasts := [] |} in
  wishlist (CourseCard.handleWishlistToggle AtNextRender (Some c)
              (CourseCard.handleWishlistToggle BeforeReturn (Some c) s))
  = [c; c].
Proof. vm_compute. reflexivity. Qed.

(** X12. "Move to cart" on the wishlist page, for a course whose id is equal
    to itself under [===] (any id but NaN): afterwards the course is in the
    cart, which is the cart [addToCart] gives (the quantity one higher when
    the course was there already), and no longer in the wishlist, which is
    the old one without the entries of that id, the others as they were and
    in their order. *)
Theorem handleMoveToCart_moves (when : updater_run) (c : object) (s : app) :
  self_equal c = true ->
  let s' := Wishlist.handleMoveToCart when c s in
  CartProvider.isInCart (cart s') (get c "id") = true
  /\ cart s' = fst (CartProvider.addToCart when c (cart s))
  /\ WishlistProvider.isInWishlist (wishlist s') (get c "id") = false
  /\ wishlist s'
     = List.filter (fun i => negb (strict_eq (get i "id") (get c "id"))) (wishlist s).
Proof.
  intros R. unfold Wishlist.handleMoveToCart, on_wishlist, on_cart.
  destruct (CartProvider.addToCart when c (cart s)) as [next fired] eqn:A. simpl.
  split; [|split; [reflexivity|split; [|reflexivity]]].
  - pose proof (proj1 (addToCart_then_isInCart_cases when c (cart s))) as H.
    rewrite A in H. simpl in H. rewrite H. exact R.
  - apply (existsb_filter_negb (fun i : object => strict_eq (get i "id") (get c "id"))).
Qed.

Lemma handleMoveToCart_moves_witness :
  let s := {| cart := [entry 1 10 2]; wishlist := [course 1 "A" 10; course 2 "B" 5];
              toasts := [] |} in
  cart (Wishlist.handleMoveToCart AtNextRender (course 1 "A" 10) s) = [entry 1 10 3]
  /\ wishlist (Wishlist.handleMoveToCart AtNextRender (course 1 "A" 10) s)
     = [course 2 "B" 5].
Proof.
  intros s.
  destruct (handleMoveToCart_moves AtNextRender (course 1 "A" 10) s eq_refl)
    as (_ & C & _ & W).
  split; [rewrite C | rewrite W]; vm_compute; reflexivity.
Defined.

Lemma isInCart_ids items id :
  CartProvider.isInCart items id = existsb (fun v => strict_eq v id) (ids items).
Proof.
  unfold CartProvider.isInCart, ids. induction items as [|a l IH]; simpl; [reflexivity|].
  rewrite IH. reflexivity.
Qed.

Lemma addToCart_keeps_members when product items id :
  CartProvider.isInCart items id = true ->
  CartProvider.isInCart (fst (CartProvider.addToCart when product items)) id = true.
Proof.
  rewrite !isInCart_ids, addToCart_ids, existsb_app. intros ->. reflexivity.
Qed.

(** The cart after [add_each] is the cart after the same calls of
    [addToCart], whenever React runs the updaters. *)
Lemma add_each_cart when n (l : list object) (s : app) :
  cart (Wishlist.add_each when n l s)
  = run cart_step (List.map (AddToCart AtNextRender) l) (cart s)
  /\ wishlist (Wishlist.add_each when n l s) = wishlist s.
Proof.
  revert n s. induction l as [|a l IH]; intros n s; simpl; [split; reflexivity|].
  destruct (IH (S n) (on_cart (CartProvider.addToCart (when n) a) s)) as [C W].
  rewrite C, W. rewrite (addToCart_any_timing AtNextRender (when n)).
  unfold on_cart. destruct (CartProvider.addToCart (when n) a (cart s)); split; reflexivity.
Qed.

Lemma run_addToCart_members (l : list object) (items : list object) (c : object) :
  In c l -> self_equal c = true ->
  CartProvider.isInCart (run cart_step (List.map (AddToCart AtNextRender) l) items)
    (get c "id") = true.
Proof.
  assert (K : forall l items id, CartProvider.isInCart items id = true ->
              CartProvider.isInCart
                (run cart_step (List.map (AddToCart AtNextRender) l) items) id = true).
  { clear. induction l as [|a l IH]; intros items id H; simpl; [exact H|].
    apply IH, addToCart_keeps_members, H. }
  revert items. induction l as [|a l IH]; intros items I R; [destruct I|].
  simpl. destruct I as [->|I].
  - apply K. rewrite (proj1 (addToCart_then_isInCart_cases AtNextRender c items)). exact R.
  - apply IH; assumption.
Qed.

Lemma filter_twice {A} (f g : A -> bool) (l : list A) :
  List.filter g (List.filter f l) = List.filter (fun x => f x && g x) l.
Proof.
  induction l as [|a l IH]; simpl; [reflexivity|].
  destruct (f a); simpl; [destruct (g a)|]; rewrite IH; reflexivity.
Qed.

Lemma fold_removeFromWishlist (removed : list value) (s : app) :
  wishlist (fold_left (fun st id => on_wishlist (WishlistProvider.removeFromWishlist id) st)
              removed s)
  = List.filter (fun e : object =>
                   forallb (fun id => negb (strict_eq (get e "id") id)) removed)
                (wishlist s)
  /\ cart (fold_left (fun st id => on_wishlist (WishlistProvider.removeFromWishlist id) st)
             removed s)
     = cart s.
Proof.
  revert s. induction removed as [|id removed IH]; intros s; simpl.
  - split; [|reflexivity]. symmetry. apply filter_keeps_all.
    induction (wishlist s); simpl; auto.
  - destruct (IH (on_wishlist (WishlistProvider.removeFromWishlist id) s)) as [W C].
    rewrite W, C. unfold on_wishlist. simpl. split; [|reflexivity].
    apply filter_twice.
Qed.

Lemma removed_by_own_id (items : list object) :
  List.filter (fun e : object =>
                 forallb (fun id => negb (strict_eq (get e "id") id)) (ids items)) items
  = List.filter (fun e => negb (self_equal e)) items.
Proof.
  apply List.filter_ext_in. intros e He. unfold self_equal.
  destruct (strict_eq (get e "id") (get e "id")) eqn:R; simpl.
  - apply not_true_is_false. intros F. rewrite List.forallb_forall in F.
    specialize (F (get e "id")). rewrite R in F. simpl in F.
    assert (I : In (get e "id") (ids items))
      by (unfold ids; apply (List.in_map (fun i : object => get i "id")), He).
    specialize (F I). discriminate.
  - apply List.forallb_forall. intros id _.
    destruct (strict_eq (get e "id") id) eqn:E; [|reflexivity].
    rewrite (strict_eq_refl_l _ _ E) in R. discriminate.
Qed.

Lemma filter_none {A} (f : A -> bool) (l : list A) :
  forallb f l = true -> List.filter (fun x => negb (f x)) l = [].
Proof.
  induction l as [|a l IH]; simpl; [reflexivity|].
  intros H. apply andb_prop in H as [Ha Hl]. rewrite Ha. simpl. apply IH, Hl.
Qed.

(** X13. "Add All to Cart" on the wishlist page: afterwards every course of
    the wishlist is in the cart and the wishlist is empty, except for entries
    whose id is NaN, which no removal can name and which stay behind; a cart
    that had distinct ids and positive quantities still has them. *)
Theorem add_all_to_cart_moves_everything (when : nat -> updater_run) (s : app) :
  let s' := Wishlist.add_all_to_cart when s in
  wishlist s' = List.filter (fun c => negb (self_equal c)) (wishlist s)
  /\ (forall c, In c (wishlist s) -> self_equal c = true ->
        CartProvider.isInCart (cart s') (get c "id") = true)
  /\ (forallb self_equal (wishlist s) = true -> wishlist s' = [])
  /\ (cart_invariant (cart s) = true -> cart_invariant (cart s') = true).
Proof.
  unfold Wishlist.add_all_to_cart. cbv zeta.
  set (added := Wishlist.add_each when 0 (wishlist s) s).
  destruct (add_each_cart when 0%nat (wishlist s) s) as [C W]. fold added in C, W.
  destruct (fold_removeFromWishlist (List.map (fun c : object => get c "id") (wishlist s))
              added) as [W' C'].
  rewrite W', C', W, C.
  assert (E : List.filter (fun e : object =>
                forallb (fun id => negb (strict_eq (get e "id") id))
                  (List.map (fun c : object => get c "id") (wishlist s))) (wishlist s)
              = List.filter (fun c => negb (self_equal c)) (wishlist s))
    by apply removed_by_own_id.
  rewrite E. repeat split.
  - intros c I R. apply run_addToCart_members; assumption.
  - apply filter_none.
  - intros I. clear -I. revert I. generalize (cart s).
    induction (wishlist s) as [|a l IH]; intros items I; simpl; [exact I|].
    apply IH, addToCart_invariant, I.
Qed.

Lemma add_all_to_cart_moves_everything_witness :
  let s := {| cart := [entry 1 10 2]; wishlist := [course 1 "A" 10; course 2 "B" 5];
              toasts := [] |} in
  let when := fun n : nat => match n with O => BeforeReturn | _ => AtNextRender end in
  wishlist (Wishlist.add_all_to_cart when s) = []
  /\ cart_invariant (cart (Wishlist.add_all_to_cart when s)) = true.
Proof.
  intros s when. destruct (add_all_to_cart_moves_everything when s) as (_ & _ & E & I).
  split; [apply E | apply I]; vm_compute; reflexivity.
Defined.

(** ** The quantity buttons of the cart dropdown *)

Lemma nan_not_below x y : is_nan x = true -> (x <? y)%float = false.
Proof.
  unfold is_nan. rewrite FloatAxioms.eqb_spec, FloatAxioms.ltb_spec.
  destruct (Prim2SF x) as [s|[|]| |[|] m e] eqn:E; try reflexivity;
    rewrite SFeqb_refl by discriminate; discriminate.
Qed.

(** X14. [handleQuantityChange(id, q)] never leaves an entry of the id with
    a quantity below one: such an entry, if any is left, holds [Number(q)],
    which is at least one. A "removed" notification is fired exactly when
    [q < 1]; a [q] that is not numeric removes the entry without any. *)
Theorem handleQuantityChange_never_below_one (id q : value) (items : list object) :
  let '(next, fired) := CartIcon.handleQuantityChange id q items in
  fired = (if (Number q <? 1)%float then [toast_error (Text "Removed from cart")] else [])
  /\ (forall e, In e next -> strict_eq (get e "id") id = true ->
        get e "quantity" = VNum (Number q)
        /\ (Number q <? 1)%float = false /\ (0 <? Number q)%float = true)
  /\ (is_nan (Number q) = true -> CartProvider.isInCart next id = false /\ fired = []).
Proof.
  unfold CartIcon.handleQuantityChange.
  destruct (Number q <? 1)%float eqn:B; simpl.
  - split; [reflexivity | split].
    + intros e I S. exfalso. apply List.filter_In in I as [_ I].
      rewrite S in I. discriminate.
    + intros N. exfalso. rewrite (nan_not_below _ _ N) in B. discriminate.
  - split; [reflexivity | split].
    + intros e I S. apply List.filter_In in I as [I P].
      apply List.in_map_iff in I as (e0 & <- & _).
      destruct (strict_eq (get e0 "id") id) eqn:E0.
      * rewrite get_spread_with in *. simpl in P. auto.
      * rewrite E0 in S. discriminate.
    + intros N. split; [|reflexivity].
      apply (updateQuantity_removes_target id q items), nan_not_positive, N.
Qed.

Lemma map_at_unique (f : object -> object) (items : list object) (n : nat) item :
  unique_ids items = true -> items !! n = Some item -> self_equal item = true ->
  List.map (fun i => if strict_eq (get i "id") (get item "id") then f i else i) items
  = <[n := f item]> items.
Proof.
  unfold self_equal. intros U Hn R. revert n U Hn.
  induction items as [|a l IH]; intros [|n] U Hn; simpl in *; try discriminate;
    apply andb_prop in U as [Ua Ul].
  - injection Hn as ->. rewrite R. f_equal.
    clear -Ua. induction l as [|b l IH]; simpl in *; [reflexivity|].
    apply andb_prop in Ua as [Hb Hl]. rewrite strict_eq_sym.
    apply negb_true_iff in Hb. rewrite Hb, (IH Hl). reflexivity.
  - pose proof (forallb_at _ _ _ _ Ua Hn) as Ha. simpl in Ha.
    apply negb_true_iff in Ha. rewrite Ha. f_equal. apply IH; assumption.
Qed.

Lemma first_match_unique (items : list object) (n n' : nat) item stored :
  unique_ids items = true -> items !! n = Some item -> items !! n' = Some stored ->
  strict_eq (get stored "id") (get item "id") = true -> n' = n /\ stored = item.
Proof.
  intros U Hn Hn' S. destruct (Nat.eq_dec n' n) as [->|D].
  - split; [reflexivity | congruence].
  - rewrite (proj1 (unique_ids_pairwise items) U n' n stored item D Hn' Hn) in S.
    discriminate.
Qed.

(** X15. On a cart with distinct ids and quantities above zero, for an item
    of the cart whose id is equal to itself under [===] (any id but NaN) and
    whose quantity is an integer [k] with [1 <= k] and [k + 1 < 2^53]: the
    plus button does what [addToCart] of the item does, whenever React runs
    its updater, setting the quantity to [k + 1] and nothing else, with no
    notification; the minus button sets it to [k - 1], and at [k = 1]
    removes the item as [removeFromCart] does. (At [k = 2^53] the plus
    button leaves the quantity as it is, and for an item whose id is NaN it
    changes nothing while [addToCart] appends.) *)
Theorem quantity_buttons
    (when : updater_run) (items : list object) (n : nat) (item : object) (k : Z) :
  unique_ids items = true -> forallb quantity_above_zero items = true ->
  items !! n = Some item -> self_equal item = true ->
  get item "quantity" = VNum (integer k) -> 1 <= k -> k + 1 < 2 ^ 53 ->
  CartIcon.increase item items
  = (<[n := <["quantity" := VNum (integer (k + 1))]> item]> items, [])
  /\ CartIcon.increase item items = CartProvider.addToCart when item items
  /\ CartIcon.decrease item items
     = if k =? 1 then CartProvider.removeFromCart (get item "id") items
       else (<[n := <["quantity" := VNum (integer (k - 1))]> item]> items, []).
Proof.
  intros U P Hn R Hq Hk Hs.
  assert (Up : forall j, 1 <= j -> j < 2 ^ 53 ->
            CartProvider.updateQuantity (get item "id") (VNum (integer j)) items
            = (<[n := <["quantity" := VNum (integer j)]> item]> items, [])).
  { intros j Hj Hj'.
    pose proof (updateQuantity_above_zero (get item "id") (VNum (integer j)) items P
                  (integer_positive j ltac:(lia) Hj')) as E.
    simpl Number in E. rewrite (map_at_unique _ items n item U Hn R) in E.
    rewrite (surjective_pairing (CartProvider.updateQuantity _ _ _)), E. reflexivity. }
  assert (I : CartIcon.increase item items
              = (<[n := <["quantity" := VNum (integer (k + 1))]> item]> items, [])).
  { unfold CartIcon.increase, CartIcon.handleQuantityChange. rewrite Hq. simpl Number.
    rewrite integer_truthy by lia. change 1%float with (integer 1).
    rewrite integer_add, integer_ltb by lia.
    replace (k + 1 <? 1) with false by (symmetry; apply Z.ltb_ge; lia).
    apply Up; lia. }
  split; [exact I | split].
  - rewrite I. pose proof (addToCart_cases when item items) as C.
    assert (M : CartProvider.isInCart items (get item "id") = true).
    { unfold CartProvider.isInCart. apply List.existsb_exists. exists item.
      split; [|exact R]. apply list_elem_of_In, list_elem_of_lookup. eauto. }
    rewrite M in C. destruct C as (n' & stored & Hn' & S & _ & ->).
    destruct (first_match_unique items n n' item stored U Hn Hn' S) as [-> ->].
    rewrite Hq, incremented_integer by lia. reflexivity.
  - unfold CartIcon.decrease, CartIcon.handleQuantityChange. rewrite Hq. simpl Number.
    rewrite integer_truthy by lia. change 1%float with (integer 1).
    rewrite integer_sub, integer_ltb by lia.
    destruct (Z.eqb_spec k 1) as [->|D].
    + reflexivity.
    + replace (k - 1 <? 1) with false by (symmetry; apply Z.ltb_ge; lia).
      apply Up; lia.
Qed.

Lemma quantity_buttons_witness :
  let items := [entry 1 10 2; entry 2 5 1] in
  CartIcon.increase (entry 1 10 2) items = ([entry 1 10 3; entry 2 5 1], [])
  /\ CartIcon.decrease (entry 2 5 1) items
     = ([entry 1 10 2], [toast_error (Text "Removed from cart")]).
Proof.
  intros items.
  assert (U : unique_ids items = true) by (vm_compute; reflexivity).
  assert (P : forallb quantity_above_zero items = true) by (vm_compute; reflexivity).
  split.
  - destruct (quantity_buttons AtNextRender items 0 (entry 1 10 2) 2 U P eq_refl eq_refl)
      as (H & _ & _); [vm_compute; reflexivity | lia | reflexivity |].
    rewrite H. vm_compute. reflexivity.
  - destruct (quantity_buttons AtNextRender items 1 (entry 2 5 1) 1 U P eq_refl eq_refl)
      as (_ & _ & H); [vm_compute; reflexivity | lia | reflexivity |].
    rewrite H. vm_compute. reflexivity.
Defined.

Example increase_at_2_53 :
  let item := entry 1 10 9007199254740992 in
  CartIcon.increase item [item] = ([item], []).
Proof. vm_compute. reflexivity. Qed.

Example increase_on_NaN_id :
  let item : object := {[ "id" := VNum nan; "quantity" := VNum 1 ]} in
  fst (CartIcon.increase item [item]) = [item]
  /\ fst (CartProvider.addToCart AtNextRender item [item]) = [item; item].
Proof. vm_compute. split; reflexivity. Qed.

(** ** Writing to the store and reading back *)

Lemma safeSet_fails (b : browser) key v :
  has_window b = false \/ storage_denied b = true
  \/ (exists e, stringify b v = Throws e)
  \/ (exists text, stringify b v = Returns text /\ storage_full b key text = true) ->
  safeSet b key v = b.
Proof.
  unfold safeSet. intros [W|[D|[[e S]|(text & S & F)]]].
  - rewrite W. reflexivity.
  - rewrite D. destruct (has_window b); reflexivity.
  - rewrite S. destruct (has_window b), (storage_denied b); reflexivity.
  - rewrite S, F. destruct (has_window b), (storage_denied b); reflexivity.
Qed.

Lemma safeSet_other_key (b : browser) key v other :
  other <> key ->
  safeGet (environment_of (safeSet b key v)) other = safeGet (environment_of b) other.
Proof.
  intros D. unfold safeSet.
  destruct (has_window b) eqn:W; simpl; [|reflexivity].
  destruct (storage_denied b) eqn:S; [reflexivity|].
  destruct (stringify b v) as [text|]; [|reflexivity].
  destruct (storage_full b key text); [reflexivity|].
  unfold safeGet, environment_of. cbn [window_defined localStorage_getItem JSON_parse
    has_window storage_denied stored parse].
  rewrite W, S. rewrite lookup_insert_ne by congruence. reflexivity.
Qed.

Lemma safeSet_same_key (b : browser) key v text :
  has_window b = true -> storage_denied b = false ->
  stringify b v = Returns text -> storage_full b key text = false ->
  safeGet (environment_of (safeSet b key v)) key
  = if String.eqb text "" then VNull
    else match parse b text with Returns parsed => parsed | Throws _ => VNull end.
Proof.
  intros W D S F. unfold safeSet. rewrite W, D, S, F. simpl.
  unfold safeGet, environment_of. cbn [window_defined localStorage_getItem JSON_parse
    has_window storage_denied stored parse].
  rewrite ?W, ?D, lookup_insert_eq. simpl. destruct (String.eqb text ""); reflexivity.
Qed.

(** X16. [safeSet] and [safeGet] form a key-value store that cannot fail:
    a write never changes what is read under another key; after a write that
    went through, the same key reads what [JSON.parse] makes of the written
    text; and a write that cannot go through (no [window], storage denied or
    full, a value that cannot be serialized) leaves everything as it was. *)
Theorem safeSet_then_safeGet (b : browser) (key : string) (v : value) :
  (forall other, other <> key ->
     safeGet (environment_of (safeSet b key v)) other = safeGet (environment_of b) other)
  /\ (forall text,
        has_window b = true -> storage_denied b = false ->
        stringify b v = Returns text -> storage_full b key text = false ->
        safeGet (environment_of (safeSet b key v)) key
        = if String.eqb text "" then VNull
          else match parse b text with Returns parsed => parsed | Throws _ => VNull end)
  /\ (has_window b = false \/ storage_denied b = true
      \/ (exists e, stringify b v = Throws e)
      \/ (exists text, stringify b v = Returns text /\ storage_full b key text = true) ->
      safeSet b key v = b).
Proof.
  split; [|split].
  - intros other. apply safeSet_other_key.
  - intros text. apply safeSet_same_key.
  - apply safeSet_fails.
Qed.

(** X17. What a provider wrote is what it loads at the next start: when
    the record [{ items, updatedAt }] is written under a key and
    [JSON.parse] turns the written text back into a record with the items
    [reloaded], the initial state read from that key is [reloaded], whatever
    the key held before; and the other provider's key loads as before. *)
Theorem persisted_items_load_back
    (b : browser) (key text : string) (c a c' a' : N)
    (items reloaded : list value) (now now' : float) :
  has_window b = true -> storage_denied b = false ->
  stringify b (persisted_record c a items now) = Returns text ->
  storage_full b key text = false ->
  text <> "" ->
  parse b text = Returns (persisted_record c' a' reloaded now') ->
  initial_items (environment_of (safeSet b key (persisted_record c a items now))) key
  = Returns reloaded
  /\ (forall other, other <> key ->
        initial_items
          (environment_of (safeSet b key (persisted_record c a items now))) other
        = initial_items (environment_of b) other).
Proof.
  intros W D S F N P. split.
  - rewrite initial_items_of_value, (safeSet_same_key b key _ text W D S F), P.
    apply String.eqb_neq in N. rewrite N. reflexivity.
  - intros other Ho. rewrite !initial_items_of_value, safeSet_other_key by assumption.
    reflexivity.
Qed.

Lemma persisted_items_load_back_witness :
  initial_items
    (environment_of
       (safeSet working_browser "cart"
          (persisted_record 1 2 [VObj 3 legacy_cart_second] 1700000000000)))
    "cart"
  = Returns [VObj 12 legacy_cart_second].
Proof.
  apply (persisted_items_load_back working_browser "cart" written_cart_text
           1 2 10 11 [VObj 3 legacy_cart_second] [VObj 12 legacy_cart_second]
           1700000000000 1700000000000);
    try reflexivity.
  vm_compute. discriminate.
Defined.
